(** * The Android composite USB gadget driver (drivers/usb/gadget/android.c)

    A shallow embedding of the control plane of the driver: the registry
    of function drivers, the gate that binds them into the one
    configuration, the choice of the product id, the enable/disable
    transition and the dispatch of setup requests to the interfaces. *)

From Stdlib Require Import ZArith String List Lia Bool Sorted.
From stdpp Require Import base option list.
Import ListNotations.
Open Scope string_scope.
Open Scope list_scope.
Open Scope Z_scope.

(** ** C arithmetic used by the driver *)

(** An [int] of the kernel: 32 bits, two's complement.  The only
    arithmetic the driver does on one is [_registered_function_count++]. *)
Definition INT_MAX : Z := 2147483647.

Definition wrap_int (x : Z) : Z := (x + 2147483648) mod 4294967296 - 2147483648.

(** C's [!x] on an [int]; [!!x] is [lnot (lnot x)]. *)
Definition lnot (x : Z) : Z := if x =? 0 then 1 else 0.

(** A value stored into a [__le16] field keeps its low 16 bits. *)
Definition cpu_to_le16 (x : Z) : Z := x mod 65536.

(** [!strcmp(a, b)] *)
Definition streq (a b : string) : bool := String.eqb a b.

(** Constants of linux/usb/ch9.h and of errno. *)
Definition USB_CLASS_PER_INTERFACE : Z := 0.
Definition USB_CLASS_COMM : Z := 2.
Definition USB_CLASS_WIRELESS_CONTROLLER : Z := 224.
Definition EOPNOTSUPP : Z := 95.

(** The two Kconfig switches that select code in [android_enable_function]. *)
Record kconfig := {
  CONFIG_USB_ANDROID_RNDIS : bool;
  CONFIG_USB_ANDROID_RNDIS_WCEIS : bool
}.

(** ** Data *)

Record usb_ctrlrequest := {
  bRequestType : Z;
  bRequest : Z;
  wValue : Z;
  wIndex : Z;
  wLength : Z
}.

Definition set_wIndex (r : usb_ctrlrequest) (i : Z) : usb_ctrlrequest :=
  {| bRequestType := bRequestType r; bRequest := bRequest r;
     wValue := wValue r; wIndex := i; wLength := wLength r |}.

(** The fields of the device descriptor the driver writes. *)
Record usb_device_descriptor := {
  bcdUSB : Z;
  bDeviceClass : Z;
  idVendor : Z;
  idProduct : Z;
  bcdDevice : Z;
  bNumConfigurations : Z
}.

Definition set_idProduct (d : usb_device_descriptor) (v : Z) : usb_device_descriptor :=
  {| bcdUSB := bcdUSB d; bDeviceClass := bDeviceClass d; idVendor := idVendor d;
     idProduct := v; bcdDevice := bcdDevice d;
     bNumConfigurations := bNumConfigurations d |}.

Definition set_bDeviceClass (d : usb_device_descriptor) (v : Z) : usb_device_descriptor :=
  {| bcdUSB := bcdUSB d; bDeviceClass := v; idVendor := idVendor d;
     idProduct := idProduct d; bcdDevice := bcdDevice d;
     bNumConfigurations := bNumConfigurations d |}.

(** [struct usb_composite_dev]: the driver touches [cdev->desc] only. *)
Record usb_composite_dev := { desc : usb_device_descriptor }.

(** [struct android_usb_product]: [functions] with [num_functions] entries. *)
Record android_usb_product := {
  product_id : Z;
  p_functions : list string
}.

(** What the driver leaves in the kernel log and which framework
    primitives it calls, in order. *)
Inductive event :=
| pr_info_register (name : string)
| enter_bind_functions
| call_bind_config (name : string)
| pr_err_not_found (name : string)
| call_usb_composite_force_reset (handle : bool).

Definition event_eqb (a b : event) : bool :=
  match a, b with
  | pr_info_register x, pr_info_register y => streq x y
  | enter_bind_functions, enter_bind_functions => true
  | call_bind_config x, call_bind_config y => streq x y
  | pr_err_not_found x, pr_err_not_found y => streq x y
  | call_usb_composite_force_reset x, call_usb_composite_force_reset y => Bool.eqb x y
  | _, _ => false
  end.

(** [dev->config] is either NULL or the address of the one configuration
    of this driver, [android_config_driver]. *)
Inductive config_ref := android_config_driver_ref.

Section Driver.

(** The state private to the function drivers, which their setup
    handlers read and write. *)
Context {W : Type}.

(** [struct usb_function]: [disabled] is an [int], zero when the function
    is enabled; [setup] is a function pointer, possibly NULL, given the
    request and returning an [int]. *)
Record usb_function := {
  name : string;
  disabled : Z;
  setup : option (usb_ctrlrequest -> W -> Z * W)
}.

Definition set_disabled (f : usb_function) (v : Z) : usb_function :=
  {| name := name f; disabled := v; setup := setup f |}.

(** [struct usb_configuration]: the list [functions] and the entries
    [interface[0]] to [interface[next_interface_id - 1]] of the array of
    interfaces, each a pointer to a function. *)
Record usb_configuration := {
  functions : list usb_function;
  interface : list usb_function
}.

Definition set_functions (c : usb_configuration) (l : list usb_function) : usb_configuration :=
  {| functions := l; interface := interface c |}.

(** [struct android_usb_function]: the [bind_config] callback is given the
    configuration and adds its function to it. *)
Record android_usb_function := {
  a_name : string;
  bind_config : usb_configuration -> usb_configuration
}.

(** [struct android_dev]; [d_functions] is [dev->functions], whose length
    is [dev->num_functions]; [products] is NULL or an array of
    [num_products] entries; [d_product_id] is [dev->product_id]. *)
Record android_dev := {
  cdev : option usb_composite_dev;
  config : option config_ref;
  products : option (list android_usb_product);
  d_functions : list string;
  d_product_id : Z;
  version : Z
}.

Definition num_functions (dev : android_dev) : Z := Z.of_nat (length (d_functions dev)).

Definition set_config (dev : android_dev) (c : option config_ref) : android_dev :=
  {| cdev := cdev dev; config := c; products := products dev;
     d_functions := d_functions dev; d_product_id := d_product_id dev;
     version := version dev |}.

Definition set_cdev (dev : android_dev) (c : option usb_composite_dev) : android_dev :=
  {| cdev := c; config := config dev; products := products dev;
     d_functions := d_functions dev; d_product_id := d_product_id dev;
     version := version dev |}.

(** The globals of the file. *)
Record android_state := {
  _android_dev : option android_dev;
  _functions : list android_usb_function;
  _registered_function_count : Z;
  device_desc : usb_device_descriptor;
  android_config_driver : usb_configuration;
  klog : list event
}.

Definition set_dev (s : android_state) (d : option android_dev) : android_state :=
  {| _android_dev := d; _functions := _functions s;
     _registered_function_count := _registered_function_count s;
     device_desc := device_desc s;
     android_config_driver := android_config_driver s; klog := klog s |}.

Definition set_registry (s : android_state) (l : list android_usb_function) (n : Z) : android_state :=
  {| _android_dev := _android_dev s; _functions := l;
     _registered_function_count := n;
     device_desc := device_desc s;
     android_config_driver := android_config_driver s; klog := klog s |}.

Definition set_device_desc (s : android_state) (d : usb_device_descriptor) : android_state :=
  {| _android_dev := _android_dev s; _functions := _functions s;
     _registered_function_count := _registered_function_count s;
     device_desc := d;
     android_config_driver := android_config_driver s; klog := klog s |}.

Definition set_config_driver (s : android_state) (c : usb_configuration) : android_state :=
  {| _android_dev := _android_dev s; _functions := _functions s;
     _registered_function_count := _registered_function_count s;
     device_desc := device_desc s;
     android_config_driver := c; klog := klog s |}.

Definition emit (e : event) (s : android_state) : android_state :=
  {| _android_dev := _android_dev s; _functions := _functions s;
     _registered_function_count := _registered_function_count s;
     device_desc := device_desc s;
     android_config_driver := android_config_driver s; klog := klog s ++ [e] |}.

(** ** Choice of the product id *)

(** [product_has_function]: 1 when the name of [f] is among the
    functions of the product, else 0. *)
Fixpoint has_name (nm : string) (l : list string) : Z :=
  match l with
  | [] => 0
  | x :: l' => if streq nm x then 1 else has_name nm l'
  end.

Definition product_has_function (p : android_usb_product) (f : usb_function) : Z :=
  has_name (name f) (p_functions p).

(** [product_matches_functions], over the functions of
    [android_config_driver]. *)
Fixpoint product_matches (p : android_usb_product) (fs : list usb_function) : Z :=
  match fs with
  | [] => 1
  | f :: fs' =>
      if product_has_function p f =? lnot (lnot (disabled f)) then 0
      else product_matches p fs'
  end.

Definition product_matches_functions (p : android_usb_product) (c : usb_configuration) : Z :=
  product_matches p (functions c).

(** [get_product_id]; [c] is the global [android_config_driver]. *)
Fixpoint first_product (ps : list android_usb_product) (c : usb_configuration) : option Z :=
  match ps with
  | [] => None
  | p :: ps' =>
      if negb (product_matches_functions p c =? 0) then Some (product_id p)
      else first_product ps' c
  end.

Definition get_product_id (dev : android_dev) (c : usb_configuration) : Z :=
  match products dev with
  | Some ps =>
      match first_product ps c with
      | Some id => id
      | None => d_product_id dev
      end
  | None => d_product_id dev
  end.

(** ** Registry and binding *)

(** [get_function]: the first registered function driver of that name. *)
Fixpoint get_function (nm : string) (l : list android_usb_function) : option android_usb_function :=
  match l with
  | [] => None
  | f :: l' => if streq nm (a_name f) then Some f else get_function nm l'
  end.

(** The loop of [bind_functions] over [dev->functions]; [dev->config] is
    [android_config_driver]. *)
Fixpoint bind_loop (names : list string) (s : android_state) : android_state :=
  match names with
  | [] => s
  | nm :: names' =>
      match get_function nm (_functions s) with
      | Some f =>
          bind_loop names'
            (set_config_driver (emit (call_bind_config nm) s)
               (bind_config f (android_config_driver s)))
      | None => bind_loop names' (emit (pr_err_not_found nm) s)
      end
  end.

Definition bind_functions (dev : android_dev) (s : android_state) : android_state :=
  bind_loop (d_functions dev) (emit enter_bind_functions s).

(** [android_bind_config]: dereferences [_android_dev]. *)
Definition android_bind_config (c : config_ref) (s : android_state) : option android_state :=
  dev ← _android_dev s;
  let dev := set_config dev (Some c) in
  let s := set_dev s (Some dev) in
  if _registered_function_count s =? num_functions dev
  then Some (bind_functions dev s)
  else Some s.

(** [android_register_function]; [list_add_tail] is given a struct that
    is not linked into [_functions] yet, as it requires: the registry is
    then the list with the struct at its end. *)
Definition android_register_function (f : android_usb_function) (s : android_state) : android_state :=
  let s := emit (pr_info_register (a_name f)) s in
  let s := set_registry s (_functions s ++ [f])
             (wrap_int (_registered_function_count s + 1)) in
  match _android_dev s with
  | Some dev =>
      if bool_decide (is_Some (config dev))
         && (_registered_function_count s =? num_functions dev)
      then bind_functions dev s
      else s
  | None => s
  end.

(** ** Enabling and disabling a function *)

(** A [struct usb_function *] is modelled by the position of the function
    in the list of functions of [android_config_driver]; a position
    outside the list is no pointer to a function, and a call on it has no
    result. *)

(** Modelled from the spec: [usb_function_set_enabled] of composite.c,
    which is not part of the sources at hand; it "flips the module's
    enabled flag", that is [f->disabled = !enabled]. *)
Definition usb_function_set_enabled (f : nat) (enabled : Z) (s : android_state) : android_state :=
  set_config_driver s
    (set_functions (android_config_driver s)
       (alter (fun fn => set_disabled fn (lnot enabled)) f
          (functions (android_config_driver s)))).

(** [usb_composite_force_reset] of composite.c is outside the sources at
    hand: the call is recorded with whether its argument is a handle or
    NULL. *)
Definition usb_composite_force_reset (h : option usb_composite_dev) (s : android_state) : android_state :=
  emit (call_usb_composite_force_reset (bool_decide (is_Some h))) s.

(** The [list_for_each_entry] of the RNDIS block, from position [i] on. *)
Fixpoint rndis_loop (fs : list usb_function) (i : nat) (enable : Z) (s : android_state) : android_state :=
  match fs with
  | [] => s
  | func :: fs' =>
      rndis_loop fs' (S i) enable
        (if streq (name func) "usb_mass_storage"
            || streq (name func) "mtp"
            || streq (name func) "adb"
         then usb_function_set_enabled i (lnot enable) s
         else s)
  end.

(** The block under [CONFIG_USB_ANDROID_RNDIS]; it writes through
    [dev->cdev] without a test. *)
Definition rndis_block (k : kconfig) (enable : Z) (s : android_state) : option android_state :=
  dev ← _android_dev s;
  cd ← cdev dev;
  let class :=
    if negb (enable =? 0)
    then (if CONFIG_USB_ANDROID_RNDIS_WCEIS k
          then USB_CLASS_WIRELESS_CONTROLLER else USB_CLASS_COMM)
    else USB_CLASS_PER_INTERFACE in
  let s := set_dev s (Some (set_cdev dev
             (Some {| desc := set_bDeviceClass (desc cd) class |}))) in
  Some (rndis_loop (functions (android_config_driver s)) 0 enable s).

(** [android_enable_function] *)
Definition android_enable_function (k : kconfig) (f : nat) (enable : Z) (s : android_state) : option android_state :=
  fn ← functions (android_config_driver s) !! f;
  let disable := lnot enable in
  if negb (lnot (lnot (disabled fn)) =? disable) then
    let s := usb_function_set_enabled f (lnot disable) s in
    s ← (if CONFIG_USB_ANDROID_RNDIS k && streq (name fn) "rndis"
         then rndis_block k enable s else Some s);
    dev ← _android_dev s;
    let product_id := get_product_id dev (android_config_driver s) in
    let s := set_device_desc s (set_idProduct (device_desc s) (cpu_to_le16 product_id)) in
    let s :=
      match cdev dev with
      | Some cd =>
          set_dev s (Some (set_cdev dev
            (Some {| desc := set_idProduct (desc cd) (idProduct (device_desc s)) |})))
      | None => s
      end in
    Some (usb_composite_force_reset (cdev dev) s)
  else Some s.

(** ** Dispatch of a setup request *)

(** One invocation of an interface's setup handler: the interface, the
    request it was handed and what it returned. *)
Record setup_call := {
  at_interface : nat;
  seen : usb_ctrlrequest;
  returned : Z
}.

(** The locals of [android_setup_config] together with the caller's
    request [*ctrl], the state of the function drivers and the handlers
    invoked so far. *)
Record setup_frame := {
  ctrl_arg : usb_ctrlrequest;
  tmp_ctrl : usb_ctrlrequest;
  ret : Z;
  world : W;
  calls : list setup_call
}.

(** The [for] loop of [android_setup_config], from interface [i] on. *)
Fixpoint setup_loop (ifs : list usb_function) (i : nat) (fr : setup_frame) : setup_frame :=
  match ifs with
  | [] => fr
  | f :: ifs' =>
      match setup f with
      | Some h =>
          let tmp := set_wIndex (tmp_ctrl fr) (cpu_to_le16 (Z.of_nat i)) in
          let rw := h tmp (world fr) in
          let fr' := {| ctrl_arg := ctrl_arg fr; tmp_ctrl := tmp;
                        ret := fst rw; world := snd rw;
                        calls := calls fr ++
                          [{| at_interface := i; seen := tmp; returned := fst rw |}] |} in
          if 0 <=? fst rw then fr' else setup_loop ifs' (S i) fr'
      | None => setup_loop ifs' (S i) fr
      end
  end.

(** [android_setup_config]; its return value is [ret] of the result. *)
Definition android_setup_config (c : usb_configuration) (ctrl : usb_ctrlrequest) (w : W) : setup_frame :=
  setup_loop (interface c) 0
    {| ctrl_arg := ctrl; tmp_ctrl := ctrl; ret := - EOPNOTSUPP;
       world := w; calls := [] |}.

(** The interfaces that have a handler, by index, from interface [i] on. *)
Fixpoint handler_indices (ifs : list usb_function) (i : nat) : list nat :=
  match ifs with
  | [] => []
  | f :: ifs' =>
      match setup f with
      | Some _ => i :: handler_indices ifs' (S i)
      | None => handler_indices ifs' (S i)
      end
  end.

Fixpoint handlers_from (ifs : list usb_function) (i : nat)
  : list (nat * (usb_ctrlrequest -> W -> Z * W)) :=
  match ifs with
  | [] => []
  | f :: ifs' =>
      match setup f with
      | Some h => (i, h) :: handlers_from ifs' (S i)
      | None => handlers_from ifs' (S i)
      end
  end.

(** The dispatch as the specification words it: the request is forwarded
    to the handlers in interface order; the first non-negative result
    ends the search; when every handler declines the last result is
    returned, and the unsupported-request error when there is none. *)
Fixpoint forward_spec (hs : list (nat * (usb_ctrlrequest -> W -> Z * W)))
    (ctrl : usb_ctrlrequest) (w : W) (last_result : Z) : Z * W :=
  match hs with
  | [] => (last_result, w)
  | (i, h) :: hs' =>
      let rw := h (set_wIndex ctrl (cpu_to_le16 (Z.of_nat i))) w in
      if 0 <=? fst rw then rw else forward_spec hs' ctrl (snd rw) (fst rw)
  end.

Definition dispatch_spec (c : usb_configuration) (ctrl : usb_ctrlrequest) (w : W) : Z * W :=
  forward_spec (handlers_from (interface c) 0) ctrl w (- EOPNOTSUPP).

(** The handler invocations a run of the loop adds, first to last. *)
Fixpoint setup_calls (ifs : list usb_function) (i : nat)
    (tmp : usb_ctrlrequest) (w : W) : list setup_call :=
  match ifs with
  | [] => []
  | f :: ifs' =>
      match setup f with
      | Some h =>
          let tmp' := set_wIndex tmp (cpu_to_le16 (Z.of_nat i)) in
          let rw := h tmp' w in
          {| at_interface := i; seen := tmp'; returned := fst rw |}
          :: (if 0 <=? fst rw then [] else setup_calls ifs' (S i) tmp' (snd rw))
      | None => setup_calls ifs' (S i) tmp w
      end
  end.

(** A configuration of three interfaces: the first declines with -1, the
    second answers 7, the third would answer 9. *)
Definition example_interfaces : usb_configuration :=
  {| functions := [];
     interface :=
       [ {| name := "a"; disabled := 0; setup := Some (fun _ w => (-1, w)) |};
         {| name := "b"; disabled := 0; setup := Some (fun _ w => (7, w)) |};
         {| name := "c"; disabled := 0; setup := Some (fun _ w => (9, w)) |} ] |}.

Definition example_request : usb_ctrlrequest :=
  {| bRequestType := 161; bRequest := 254; wValue := 0; wIndex := 5; wLength := 1 |}.

(** ** Runs of the driver: register calls and attach events *)

Inductive call :=
| Register (f : android_usb_function)
| Attach (c : config_ref).

Definition step (e : call) (s : android_state) : option android_state :=
  match e with
  | Register f => Some (android_register_function f s)
  | Attach c => android_bind_config c s
  end.

Fixpoint run (evs : list call) (s : android_state) : option android_state :=
  match evs with
  | [] => Some s
  | e :: evs' => s' ← step e s; run evs' s'
  end.

Definition is_register (e : call) : bool :=
  match e with Register _ => true | Attach _ => false end.

Definition registers (evs : list call) : nat :=
  length (List.filter is_register evs).

(** How many times [bind_functions] has been entered. *)
Definition binds (s : android_state) : nat :=
  length (List.filter (event_eqb enter_bind_functions) (klog s)).

(** The condition both triggers test: the configuration is attached and
    the count equals the expected number of functions. *)
Definition gate (s : android_state) : bool :=
  match _android_dev s with
  | Some dev =>
      bool_decide (is_Some (config dev))
      && (_registered_function_count s =? num_functions dev)
  | None => false
  end.

(** ** The selection of the product id, as the specification words it *)

(** A profile matches when every function of the configuration is listed
    by the profile exactly when it is enabled. *)
Definition profile_matches_spec (p : android_usb_product) (c : usb_configuration) : bool :=
  forallb (fun f => Bool.eqb (existsb (String.eqb (name f)) (p_functions p))
                             (disabled f =? 0))
          (functions c).

(** The first matching profile of the catalog wins, else the fallback. *)
Definition select_spec (dev : android_dev) (c : usb_configuration) : Z :=
  match products dev with
  | Some ps =>
      match find (fun p => profile_matches_spec p c) ps with
      | Some p => product_id p
      | None => d_product_id dev
      end
  | None => d_product_id dev
  end.

(** The catalog of the example: 0x1111 needs A, 0x2222 needs B. *)
Definition example_catalog : list android_usb_product :=
  [ {| product_id := 4369; p_functions := ["A"] |};
    {| product_id := 8738; p_functions := ["B"] |} ].

Definition example_dev : android_dev :=
  {| cdev := None; config := None; products := Some example_catalog;
     d_functions := ["A"; "B"]; d_product_id := 1; version := 0 |}.

(** The configuration with the functions A and B and their [disabled]
    fields. *)
Definition example_config (dis_a dis_b : Z) : usb_configuration :=
  {| functions := [ {| name := "A"; disabled := dis_a; setup := None |};
                    {| name := "B"; disabled := dis_b; setup := None |} ];
     interface := [] |}.

(** ** Vocabulary for the enable transition *)

(** The call takes the block under [CONFIG_USB_ANDROID_RNDIS]. *)
Definition takes_rndis_branch (k : kconfig) (fn : usb_function) : bool :=
  CONFIG_USB_ANDROID_RNDIS k && streq (name fn) "rndis".

(** The functions that block switches together with RNDIS. *)
Definition rndis_conflict (func : usb_function) : bool :=
  streq (name func) "usb_mass_storage"
  || streq (name func) "mtp"
  || streq (name func) "adb".

(** The device class that block writes when RNDIS is enabled. *)
Definition rndis_class (k : kconfig) : Z :=
  if CONFIG_USB_ANDROID_RNDIS_WCEIS k
  then USB_CLASS_WIRELESS_CONTROLLER else USB_CLASS_COMM.

(** What that block does to one function of the configuration. *)
Definition conflict_set (enable : Z) (func : usb_function) : usb_function :=
  if rndis_conflict func then set_disabled func (lnot (lnot enable)) else func.

(** Two functions that [product_matches_functions] cannot tell apart. *)
Definition same_flag (a b : usb_function) : Prop :=
  name a = name b /\ (disabled a =? 0) = (disabled b =? 0).

(** The request asks for the state the function is in already. *)
Definition same_state (enable : Z) (fn : usb_function) : Prop :=
  enable <> 0 <-> disabled fn = 0.

(** Both copies of the product id are the one selected for the current
    enabled flags. *)
Definition descriptor_in_sync (s : android_state) (dev : android_dev) : Prop :=
  idProduct (device_desc s) =
    cpu_to_le16 (get_product_id dev (android_config_driver s)) /\
  forall cd, cdev dev = Some cd ->
    idProduct (desc cd) = idProduct (device_desc s).

(** The reconnect primitive has been called. *)
Definition reset_calls (s : android_state) : nat :=
  length (List.filter
            (fun e => match e with
                      | call_usb_composite_force_reset _ => true
                      | _ => false
                      end) (klog s)).

(** ** Concrete drivers and states *)

(** [device_desc] as the file initialises it. *)
Definition initial_device_desc : usb_device_descriptor :=
  {| bcdUSB := 512; bDeviceClass := USB_CLASS_PER_INTERFACE; idVendor := 0;
     idProduct := 0; bcdDevice := 65535; bNumConfigurations := 1 |}.

Definition plain_function (nm : string) (dis : Z) : usb_function :=
  {| name := nm; disabled := dis; setup := None |}.

(** A function driver whose [bind_config] adds its function, enabled. *)
Definition plain_driver (nm : string) : android_usb_function :=
  {| a_name := nm;
     bind_config := fun c => set_functions c (functions c ++ [plain_function nm 0]) |}.

(** A second driver that registers under a name already taken. *)
Definition second_adb_driver : android_usb_function :=
  {| a_name := "adb"; bind_config := fun c => c |}.

Definition empty_config : usb_configuration :=
  {| functions := []; interface := [] |}.

(** After [init] and [android_probe] with the given platform data. *)
Definition probed_dev (names : list string) (ps : option (list android_usb_product)) : android_dev :=
  {| cdev := None; config := None; products := ps;
     d_functions := names; d_product_id := 1; version := 0 |}.

Definition probed_state (names : list string) : android_state :=
  {| _android_dev := Some (probed_dev names None);
     _functions := []; _registered_function_count := 0;
     device_desc := initial_device_desc;
     android_config_driver := empty_config; klog := [] |}.

(** The one expected function has registered, the configuration is
    attached and the function is bound. *)
Definition complete_state : android_state :=
  {| _android_dev := Some (set_config (probed_dev ["adb"] None)
                             (Some android_config_driver_ref));
     _functions := [plain_driver "adb"]; _registered_function_count := 1;
     device_desc := initial_device_desc;
     android_config_driver := set_functions empty_config [plain_function "adb" 0];
     klog := [pr_info_register "adb"; enter_bind_functions;
              call_bind_config "adb"] |}.

(** One function expected, two registered under the same name, no
    configuration attached yet. *)
Definition overcounted_state : android_state :=
  {| _android_dev := Some (probed_dev ["adb"] None);
     _functions := [plain_driver "adb"; second_adb_driver];
     _registered_function_count := 2;
     device_desc := initial_device_desc;
     android_config_driver := empty_config;
     klog := [pr_info_register "adb"; pr_info_register "adb"] |}.

(** Two expected, "adb" registered. *)
Definition one_registered_state : android_state :=
  {| _android_dev := Some (probed_dev ["adb"; "mtp"] None);
     _functions := [plain_driver "adb"]; _registered_function_count := 1;
     device_desc := initial_device_desc;
     android_config_driver := empty_config;
     klog := [pr_info_register "adb"] |}.

Definition no_rndis : kconfig :=
  {| CONFIG_USB_ANDROID_RNDIS := false; CONFIG_USB_ANDROID_RNDIS_WCEIS := false |}.

Definition with_rndis : kconfig :=
  {| CONFIG_USB_ANDROID_RNDIS := true; CONFIG_USB_ANDROID_RNDIS_WCEIS := false |}.

(** Functions A and B bound and enabled, the catalog of the example, no
    framework handle; the product id is the fallback, as selected for
    these flags. *)
Definition no_handle_dev : android_dev :=
  {| cdev := None; config := Some android_config_driver_ref;
     products := Some example_catalog;
     d_functions := ["A"; "B"]; d_product_id := 1; version := 0 |}.

Definition no_handle_state : android_state :=
  {| _android_dev := Some no_handle_dev;
     _functions := [plain_driver "A"; plain_driver "B"];
     _registered_function_count := 2;
     device_desc := set_idProduct initial_device_desc 1;
     android_config_driver := example_config 0 0;
     klog := [] |}.

(** A and B registered late: the handle is attached and both product
    ids are 0x1111, chosen by [android_bind] while the configuration had
    no function; A and B were bound, enabled, afterwards. *)
Definition late_bound_state : android_state :=
  {| _android_dev :=
       Some (set_cdev no_handle_dev
               (Some {| desc := set_idProduct initial_device_desc 4369 |}));
     _functions := [plain_driver "A"; plain_driver "B"];
     _registered_function_count := 2;
     device_desc := set_idProduct initial_device_desc 4369;
     android_config_driver := example_config 0 0;
     klog := [] |}.

(** RNDIS and adb both enabled, a handle attached, the catalog giving
    0x1111 to RNDIS alone and 0x2222 to RNDIS with adb; both product ids
    are 0x2222 and the class is the one of RNDIS. *)
Definition rndis_catalog : list android_usb_product :=
  [ {| product_id := 4369; p_functions := ["rndis"] |};
    {| product_id := 8738; p_functions := ["rndis"; "adb"] |} ].

Definition rndis_desc : usb_device_descriptor :=
  {| bcdUSB := 512; bDeviceClass := USB_CLASS_COMM; idVendor := 0;
     idProduct := 8738; bcdDevice := 512; bNumConfigurations := 1 |}.

Definition rndis_dev : android_dev :=
  {| cdev := Some {| desc := rndis_desc |};
     config := Some android_config_driver_ref;
     products := Some rndis_catalog;
     d_functions := ["rndis"; "adb"]; d_product_id := 1; version := 0 |}.

Definition rndis_state (dis_adb : Z) (id : Z) : android_state :=
  {| _android_dev :=
       Some (set_cdev rndis_dev (Some {| desc := set_idProduct rndis_desc id |}));
     _functions := [plain_driver "rndis"; plain_driver "adb"];
     _registered_function_count := 2;
     device_desc := set_idProduct initial_device_desc id;
     android_config_driver :=
       set_functions empty_config
         [plain_function "rndis" 0; plain_function "adb" dis_adb];
     klog := [] |}.

(** Off and on again, reading the product id of [device_desc] and of the
    handle and the device class of the handle at the end. *)
Definition toggle_readout (k : kconfig) (f : nat) (s : android_state)
  : option (Z * option (Z * Z)) :=
  s1 ← android_enable_function k f 0 s;
  s2 ← android_enable_function k f 1 s1;
  dev ← _android_dev s2;
  Some (idProduct (device_desc s2),
        option_map (fun cd => (idProduct (desc cd), bDeviceClass (desc cd)))
                   (cdev dev)).

(** ** Vocabulary for binding and runs *)

(** The function drivers a run registers, in the order of the calls. *)
Fixpoint registered (evs : list call) : list android_usb_function :=
  match evs with
  | [] => []
  | Register f :: evs' => f :: registered evs'
  | Attach _ :: evs' => registered evs'
  end.

(** What [bind_functions] logs for the expected names, given the
    registry: a call of the callback or the error line. *)
Definition bind_events (names : list string) (reg : list android_usb_function) : list event :=
  map (fun nm => match get_function nm reg with
                 | Some _ => call_bind_config nm
                 | None => pr_err_not_found nm
                 end) names.

(** The callbacks of the registered ones among the expected names,
    applied to the configuration in the order of the names. *)
Definition bound_config (names : list string) (reg : list android_usb_function)
    (c : usb_configuration) : usb_configuration :=
  fold_left (fun c nm => match get_function nm reg with
                         | Some f => bind_config f c
                         | None => c
                         end) names c.

(** ** Probing the platform device and binding the composite device *)

Definition ENODEV : Z := 19.

(** [struct usb_string]: the text and its id, a [u8]. *)
Record usb_string := { str_s : string; str_id : Z }.

Definition STRING_MANUFACTURER_IDX : nat := 0.
Definition STRING_PRODUCT_IDX : nat := 1.
Definition STRING_SERIAL_IDX : nat := 2.

(** [strings_dev] as the file initialises it. *)
Definition initial_strings_dev : list usb_string :=
  [ {| str_s := "Android"; str_id := 0 |};
    {| str_s := "Android"; str_id := 0 |};
    {| str_s := "0123456789ABCDEF"; str_id := 0 |} ].

(** [struct android_usb_platform_data]: a pointer that may be NULL is an
    option; [products] and [functions] stand with their counts. *)
Record android_usb_platform_data := {
  pd_vendor_id : Z;
  pd_product_id : Z;
  pd_version : Z;
  pd_product_name : option string;
  pd_manufacturer_name : option string;
  pd_serial_number : option string;
  pd_products : option (list android_usb_product);
  pd_functions : list string
}.

(** The lines [android_probe] and [android_bind] log and the framework
    primitives they call without using a result. *)
Inductive framework_call :=
| dev_warn_no_platform_data
| call_wake_lock_init
| pr_err_usb_add_config_failed
| pr_warning_controller_not_recognized
| call_usb_gadget_set_selfpowered.

(** The globals of the file that registration and the enable transition
    do not touch, beside those they do: the string table, the string
    indices of [device_desc], and the record of the calls above. *)
Record gadget_state := {
  core : android_state;
  strings_dev : list usb_string;
  iManufacturer : Z;
  iProduct : Z;
  iSerialNumber : Z;
  calls_out : list framework_call
}.

Definition with_core (g : gadget_state) (c : android_state) : gadget_state :=
  {| core := c; strings_dev := strings_dev g; iManufacturer := iManufacturer g;
     iProduct := iProduct g; iSerialNumber := iSerialNumber g;
     calls_out := calls_out g |}.

Definition with_strings (g : gadget_state) (l : list usb_string) : gadget_state :=
  {| core := core g; strings_dev := l; iManufacturer := iManufacturer g;
     iProduct := iProduct g; iSerialNumber := iSerialNumber g;
     calls_out := calls_out g |}.

Definition noted (c : framework_call) (g : gadget_state) : gadget_state :=
  {| core := core g; strings_dev := strings_dev g; iManufacturer := iManufacturer g;
     iProduct := iProduct g; iSerialNumber := iSerialNumber g;
     calls_out := calls_out g ++ [c] |}.

Definition set_idVendor (d : usb_device_descriptor) (v : Z) : usb_device_descriptor :=
  {| bcdUSB := bcdUSB d; bDeviceClass := bDeviceClass d; idVendor := v;
     idProduct := idProduct d; bcdDevice := bcdDevice d;
     bNumConfigurations := bNumConfigurations d |}.

Definition set_bcdDevice (d : usb_device_descriptor) (v : Z) : usb_device_descriptor :=
  {| bcdUSB := bcdUSB d; bDeviceClass := bDeviceClass d; idVendor := idVendor d;
     idProduct := idProduct d; bcdDevice := v;
     bNumConfigurations := bNumConfigurations d |}.

(** [strings_dev[i].s = text] *)
Definition set_string_s (i : nat) (text : option string) (l : list usb_string) : list usb_string :=
  match text with
  | Some t => alter (fun u => {| str_s := t; str_id := str_id u |}) i l
  | None => l
  end.

(** [strings_dev[i].id = id], the field being a [u8]. *)
Definition set_string_id (i : nat) (id : Z) (l : list usb_string) : list usb_string :=
  alter (fun u => {| str_s := str_s u; str_id := id mod 256 |}) i l.

(** [android_probe]; [usb_composite_register] of the framework is a
    parameter, given the globals and returning its status. *)
Definition android_probe
    (usb_composite_register : gadget_state -> option (Z * gadget_state))
    (pdata : option android_usb_platform_data) (g : gadget_state)
  : option (Z * gadget_state) :=
  match pdata with
  | Some pd =>
      dev ← _android_dev (core g);
      let dd := device_desc (core g) in
      let dd := if negb (pd_vendor_id pd =? 0)
                then set_idVendor dd (cpu_to_le16 (pd_vendor_id pd)) else dd in
      let dd := if negb (pd_product_id pd =? 0)
                then set_idProduct dd (cpu_to_le16 (pd_product_id pd)) else dd in
      let dev :=
        {| cdev := cdev dev; config := config dev;
           products := pd_products pd;
           d_functions := pd_functions pd;
           d_product_id := if negb (pd_product_id pd =? 0)
                           then pd_product_id pd else d_product_id dev;
           version := if negb (pd_version pd =? 0)
                      then pd_version pd else version dev |} in
      let l := set_string_s STRING_PRODUCT_IDX (pd_product_name pd) (strings_dev g) in
      let l := set_string_s STRING_MANUFACTURER_IDX (pd_manufacturer_name pd) l in
      let l := set_string_s STRING_SERIAL_IDX (pd_serial_number pd) l in
      let g := with_strings
                 (with_core g (set_device_desc (set_dev (core g) (Some dev)) dd)) l in
      usb_composite_register (noted call_wake_lock_init g)
  | None => Some (- ENODEV, noted dev_warn_no_platform_data g)
  end.

(** [android_bind]; [id1], [id2] and [id3] are what [usb_string_id]
    answers to the first, second and third call, [usb_add_config] of the
    framework is a parameter, [gcnum] is what
    [usb_gadget_controller_number] answers, [cd] is [*cdev]. *)
Definition android_bind
    (id1 id2 id3 : Z)
    (usb_add_config : gadget_state -> option (Z * gadget_state))
    (gcnum : Z) (cd : usb_composite_dev) (g : gadget_state)
  : option (Z * gadget_state) :=
  if id1 <? 0 then Some (id1, g) else
  let g := {| core := core g;
              strings_dev := set_string_id STRING_MANUFACTURER_IDX id1 (strings_dev g);
              iManufacturer := id1 mod 256; iProduct := iProduct g;
              iSerialNumber := iSerialNumber g; calls_out := calls_out g |} in
  if id2 <? 0 then Some (id2, g) else
  let g := {| core := core g;
              strings_dev := set_string_id STRING_PRODUCT_IDX id2 (strings_dev g);
              iManufacturer := iManufacturer g; iProduct := id2 mod 256;
              iSerialNumber := iSerialNumber g; calls_out := calls_out g |} in
  if id3 <? 0 then Some (id3, g) else
  let g := {| core := core g;
              strings_dev := set_string_id STRING_SERIAL_IDX id3 (strings_dev g);
              iManufacturer := iManufacturer g; iProduct := iProduct g;
              iSerialNumber := id3 mod 256; calls_out := calls_out g |} in
  rg ← usb_add_config g;
  let g := snd rg in
  if negb (fst rg =? 0) then Some (fst rg, noted pr_err_usb_add_config_failed g) else
  let g :=
    if 0 <=? gcnum
    then with_core g (set_device_desc (core g)
           (set_bcdDevice (device_desc (core g)) (cpu_to_le16 (512 + gcnum))))
    else with_core (noted pr_warning_controller_not_recognized g)
           (set_device_desc (core g) (set_bcdDevice (device_desc (core g)) 39321)) in
  let g := noted call_usb_gadget_set_selfpowered g in
  dev ← _android_dev (core g);
  let dev := set_cdev dev (Some cd) in
  let product_id := get_product_id dev (android_config_driver (core g)) in
  let dd := set_idProduct (device_desc (core g)) (cpu_to_le16 product_id) in
  let dev := set_cdev dev (Some {| desc := set_idProduct (desc cd) (idProduct dd) |}) in
  Some (0, with_core g (set_device_desc (set_dev (core g) (Some dev)) dd)).

(** What [usb_composite_register] and [usb_add_config] are taken to be
    where a concrete framework is needed: the first returns 0 at once,
    the second calls the [bind] callback of the configuration,
    [android_bind_config], and returns its 0. *)
Definition register_returns_0 (g : gadget_state) : option (Z * gadget_state) :=
  Some (0, g).

Definition add_config_calls_bind (g : gadget_state) : option (Z * gadget_state) :=
  s ← android_bind_config android_config_driver_ref (core g);
  Some (0, with_core g s).

Definition initial_gadget (s : android_state) : gadget_state :=
  {| core := s; strings_dev := initial_strings_dev;
     iManufacturer := 0; iProduct := 0; iSerialNumber := 0; calls_out := [] |}.

(** Platform data with vendor and product ids, the catalog of the
    example and the functions A and B. *)
Definition example_platform_data : android_usb_platform_data :=
  {| pd_vendor_id := 6353; pd_product_id := 1; pd_version := 256;
     pd_product_name := Some "Phone"; pd_manufacturer_name := None;
     pd_serial_number := Some "42";
     pd_products := Some example_catalog; pd_functions := ["A"; "B"] |}.

(** [kzalloc] has given the zeroed [struct android_dev]. *)
Definition zeroed_dev : android_dev :=
  {| cdev := None; config := None; products := None;
     d_functions := []; d_product_id := 0; version := 0 |}.

Definition loaded_state : android_state :=
  {| _android_dev := Some zeroed_dev;
     _functions := []; _registered_function_count := 0;
     device_desc := initial_device_desc;
     android_config_driver := empty_config; klog := [] |}.

(** The globals once [android_bind] has been given its three string
    ids. *)
Definition with_string_ids (id1 id2 id3 : Z) (g : gadget_state) : gadget_state :=
  {| core := core g;
     strings_dev :=
       set_string_id STRING_SERIAL_IDX id3
         (set_string_id STRING_PRODUCT_IDX id2
            (set_string_id STRING_MANUFACTURER_IDX id1 (strings_dev g)));
     iManufacturer := id1 mod 256; iProduct := id2 mod 256;
     iSerialNumber := id3 mod 256; calls_out := calls_out g |}.


(** ** Vocabulary for a register call *)

(** The globals of a register call once the line is logged, the struct
    linked and the count incremented, before the gate is tested. *)
Definition after_list_add (f : android_usb_function) (s : android_state) : android_state :=
  set_registry (emit (pr_info_register (a_name f)) s)
    (_functions s ++ [f]) (wrap_int (_registered_function_count s + 1)).

(** What a register call logs after its registration line: the lines of
    [bind_functions] when the gate lets it in, else nothing. *)
Definition register_log_tail (f : android_usb_function) (s : android_state) : list event :=
  match _android_dev s with
  | Some dev =>
      if gate (after_list_add f s)
      then enter_bind_functions :: bind_events (d_functions dev) (_functions s ++ [f])
      else []
  | None => []
  end.

(** * Properties *)

(** ** Product id *)

Lemma has_name_existsb (nm : string) (l : list string) :
  has_name nm l = if existsb (String.eqb nm) l then 1 else 0.
Proof.
  induction l as [|x l IH]; simpl; [reflexivity|].
  unfold streq. destruct (String.eqb nm x); simpl; [reflexivity|exact IH].
Qed.

Lemma lnot_lnot (x : Z) : lnot (lnot x) = if x =? 0 then 0 else 1.
Proof. unfold lnot. destruct (x =? 0); reflexivity. Qed.

Lemma product_matches_forallb (p : android_usb_product) (fs : list usb_function) :
  product_matches p fs =
  if forallb (fun f => Bool.eqb (existsb (String.eqb (name f)) (p_functions p))
                                (disabled f =? 0)) fs
  then 1 else 0.
Proof.
  induction fs as [|f fs IH]; simpl; [reflexivity|].
  unfold product_has_function. rewrite has_name_existsb, lnot_lnot.
  destruct (existsb (String.eqb (name f)) (p_functions p));
    destruct (disabled f =? 0); simpl; auto.
Qed.

Lemma first_product_find (ps : list android_usb_product) (c : usb_configuration) :
  first_product ps c =
  option_map product_id (find (fun p => profile_matches_spec p c) ps).
Proof.
  induction ps as [|p ps IH]; simpl; [reflexivity|].
  unfold product_matches_functions, profile_matches_spec at 1.
  rewrite product_matches_forallb.
  destruct (forallb _ (functions c)); simpl; [reflexivity|exact IH].
Qed.

(** C1: [get_product_id] returns the product id of the first profile of
    the catalog, in declared order, for which every function of the
    configuration is listed exactly when it is enabled, and the fallback
    [dev->product_id] when no profile matches or the catalog is empty or
    absent; on the catalog of the example, enabled = {A} gives 0x1111,
    {B} gives 0x2222, {} and {A,B} give the fallback 0x0001. *)
Theorem get_product_id_first_match :
  (forall dev c, get_product_id dev c = select_spec dev c) /\
  get_product_id example_dev (example_config 0 1) = 4369 /\
  get_product_id example_dev (example_config 1 0) = 8738 /\
  get_product_id example_dev (example_config 1 1) = 1 /\
  get_product_id example_dev (example_config 0 0) = 1.
Proof.
  split; [|repeat split; reflexivity].
  intros dev c. unfold get_product_id, select_spec.
  destruct (products dev) as [ps|]; [|reflexivity].
  rewrite first_product_find.
  destruct (find _ ps); reflexivity.
Qed.

(** ** Setup dispatch *)

Lemma set_wIndex_twice (r : usb_ctrlrequest) (a b : Z) :
  set_wIndex (set_wIndex r a) b = set_wIndex r b.
Proof. reflexivity. Qed.

Lemma setup_loop_ctrl_arg (ifs : list usb_function) :
  forall i fr, ctrl_arg (setup_loop ifs i fr) = ctrl_arg fr.
Proof.
  induction ifs as [|f ifs IH]; intros i fr; simpl; [reflexivity|].
  destruct (setup f) as [h|]; [|apply IH].
  destruct (0 <=? _); [reflexivity|]. rewrite IH. reflexivity.
Qed.

Lemma setup_loop_calls (ifs : list usb_function) :
  forall i fr,
    calls (setup_loop ifs i fr) =
    calls fr ++ setup_calls ifs i (tmp_ctrl fr) (world fr).
Proof.
  induction ifs as [|f ifs IH]; intros i fr; simpl.
  - symmetry. apply app_nil_r.
  - destruct (setup f) as [h|]; [|apply IH].
    destruct (0 <=? _); simpl; [reflexivity|].
    rewrite IH. simpl. rewrite <- app_assoc. reflexivity.
Qed.

Lemma forward_spec_wIndex hs :
  forall ctrl v w l,
    forward_spec hs (set_wIndex ctrl v) w l = forward_spec hs ctrl w l.
Proof.
  induction hs as [|[i h] hs IH]; intros ctrl v w l; simpl; [reflexivity|].
  destruct (0 <=? _); [reflexivity|]. apply IH.
Qed.

Lemma setup_loop_forward_spec (ifs : list usb_function) :
  forall i fr,
    (ret (setup_loop ifs i fr), world (setup_loop ifs i fr)) =
    forward_spec (handlers_from ifs i) (tmp_ctrl fr) (world fr) (ret fr).
Proof.
  induction ifs as [|f ifs IH]; intros i fr; simpl; [reflexivity|].
  destruct (setup f) as [h|]; [|apply IH]. simpl.
  destruct (0 <=? _) eqn:E; simpl.
  - destruct (h _ _); reflexivity.
  - rewrite IH. simpl. apply forward_spec_wIndex.
Qed.

Lemma setup_calls_order (ifs : list usb_function) :
  forall i tmp w,
    map at_interface (setup_calls ifs i tmp w) `prefix_of` handler_indices ifs i.
Proof.
  induction ifs as [|f ifs IH]; intros i tmp w; simpl; [apply prefix_nil|].
  destruct (setup f) as [h|]; [|apply IH]. simpl.
  apply prefix_cons. destruct (0 <=? _); [apply prefix_nil|apply IH].
Qed.

Lemma setup_calls_nil (ifs : list usb_function) :
  forall i tmp w,
    setup_calls ifs i tmp w = [] <-> handler_indices ifs i = [].
Proof.
  induction ifs as [|f ifs IH]; intros i tmp w; simpl; [tauto|].
  destruct (setup f) as [h|]; [|apply IH]. split; discriminate.
Qed.

Lemma setup_calls_stop (ifs : list usb_function) :
  forall i tmp w n cl,
    setup_calls ifs i tmp w !! n = Some cl ->
    0 <= returned cl ->
    length (setup_calls ifs i tmp w) = S n.
Proof.
  induction ifs as [|f ifs IH]; intros i tmp w n cl; simpl; [discriminate|].
  destruct (setup f) as [h|]; [|apply IH].
  destruct n as [|n]; simpl.
  - intros [= <-]. simpl. intros Hr.
    apply Z.leb_le in Hr. rewrite Hr. reflexivity.
  - destruct (0 <=? _); [discriminate|].
    intros Hn Hr. f_equal. eapply IH; eassumption.
Qed.

Lemma setup_calls_exhaust (ifs : list usb_function) :
  forall i tmp w cl,
    last (setup_calls ifs i tmp w) = Some cl ->
    returned cl < 0 ->
    map at_interface (setup_calls ifs i tmp w) = handler_indices ifs i.
Proof.
  induction ifs as [|f ifs IH]; intros i tmp w cl; simpl; [discriminate|].
  destruct (setup f) as [h|]; [|apply IH].
  rewrite last_cons. destruct (0 <=? _) eqn:E; simpl.
  - intros [= <-]. simpl. apply Z.leb_le in E. lia.
  - destruct (last (setup_calls ifs (S i) _ _)) as [y|] eqn:L.
    + intros [= <-] Hr. f_equal. eapply IH; eassumption.
    + intros _ _. apply last_None in L. rewrite L. simpl. f_equal.
      symmetry. eapply setup_calls_nil. exact L.
Qed.

Lemma setup_loop_ret (ifs : list usb_function) :
  forall i fr,
    ret (setup_loop ifs i fr) =
    match last (setup_calls ifs i (tmp_ctrl fr) (world fr)) with
    | Some cl => returned cl
    | None => ret fr
    end.
Proof.
  induction ifs as [|f ifs IH]; intros i fr; simpl; [reflexivity|].
  destruct (setup f) as [h|]; [|apply IH].
  rewrite last_cons. destruct (0 <=? _); simpl; [reflexivity|].
  rewrite IH. simpl. destruct (last _); reflexivity.
Qed.

Lemma setup_calls_seen (ifs : list usb_function) :
  forall i tmp w,
    Forall (fun cl => seen cl = set_wIndex tmp (cpu_to_le16 (Z.of_nat (at_interface cl))))
           (setup_calls ifs i tmp w).
Proof.
  induction ifs as [|f ifs IH]; intros i tmp w; simpl; [constructor|].
  destruct (setup f) as [h|]; [|apply IH].
  constructor; [reflexivity|].
  destruct (0 <=? _); [constructor|].
  eapply Forall_impl; [apply IH|]. intros cl ->. apply set_wIndex_twice.
Qed.

Lemma setup_calls_wIndex (ifs : list usb_function) :
  forall i tmp v w,
    setup_calls ifs i (set_wIndex tmp v) w = setup_calls ifs i tmp w.
Proof.
  induction ifs as [|f ifs IH]; intros i tmp v w; simpl; [reflexivity|].
  destruct (setup f) as [h|]; [|apply IH]. reflexivity.
Qed.

Lemma handler_indices_lower (ifs : list usb_function) :
  forall k, Forall (fun i => (k <= i)%nat) (handler_indices ifs k).
Proof.
  induction ifs as [|f ifs IH]; intros k; simpl; [constructor|].
  assert (H : Forall (fun i => (k <= i)%nat) (handler_indices ifs (S k))).
  { eapply Forall_impl; [apply IH|]. simpl. intros; lia. }
  destruct (setup f); [constructor; [lia|exact H]|exact H].
Qed.

Lemma handler_indices_sorted (ifs : list usb_function) :
  forall k, StronglySorted lt (handler_indices ifs k).
Proof.
  induction ifs as [|f ifs IH]; intros k; simpl; [constructor|].
  destruct (setup f); [|apply IH].
  constructor; [apply IH|].
  eapply Forall_impl; [apply handler_indices_lower|]. simpl. intros; lia.
Qed.

Lemma handler_indices_elem (ifs : list usb_function) :
  forall k i,
    i ∈ handler_indices ifs k <->
    (k <= i)%nat /\ exists f h, ifs !! (i - k)%nat = Some f /\ setup f = Some h.
Proof.
  induction ifs as [|f ifs IH]; intros k i; simpl.
  - split; [intros H; inversion H|]. intros (_ & g & h & H & _). discriminate.
  - assert (Hrec : i ∈ handler_indices ifs (S k) <->
                   (S k <= i)%nat /\
                   exists g h, (f :: ifs) !! (i - k)%nat = Some g /\ setup g = Some h).
    { rewrite IH. split; intros (Hle & g & h & Hg & Hs); (split; [exact Hle|]);
        exists g, h; (split; [|exact Hs]).
      - replace (i - k)%nat with (S (i - S k)) by lia. exact Hg.
      - replace (i - k)%nat with (S (i - S k)) in Hg by lia. exact Hg. }
    destruct (setup f) as [h0|] eqn:Hs0.
    + rewrite elem_of_cons, Hrec. split.
      * intros [->|(Hle & Hex)]; [|split; [lia|exact Hex]].
        split; [lia|]. exists f, h0. rewrite Nat.sub_diag. auto.
      * intros (Hle & Hex). destruct (decide (i = k)) as [->|Hne]; [left; reflexivity|].
        right. split; [lia|exact Hex].
    + rewrite Hrec. split.
      * intros (Hle & Hex). split; [lia|exact Hex].
      * intros (Hle & g & h & Hg & Hs). destruct (decide (i = k)) as [->|Hne].
        -- rewrite Nat.sub_diag in Hg. simpl in Hg. injection Hg as <-. congruence.
        -- split; [lia|]. exists g, h. auto.
Qed.

(** C6: the dispatch consults the interfaces that have a handler in
    index order and skips the others; a handler returning a non-negative
    result ends the search and that result is returned, no later
    interface being consulted; when the last handler consulted returned a
    negative result every handler was consulted and that result is
    returned; with no handler at all nothing is consulted and
    -EOPNOTSUPP is returned. *)
Theorem android_setup_config_dispatch (c : usb_configuration) (ctrl : usb_ctrlrequest) (w : W) :
  let fr := android_setup_config c ctrl w in
  (forall i, i ∈ handler_indices (interface c) 0 <->
             exists f h, interface c !! i = Some f /\ setup f = Some h) /\
  StronglySorted lt (handler_indices (interface c) 0) /\
  map at_interface (calls fr) `prefix_of` handler_indices (interface c) 0 /\
  (forall n cl, calls fr !! n = Some cl -> 0 <= returned cl ->
     length (calls fr) = S n /\ ret fr = returned cl) /\
  (forall cl, last (calls fr) = Some cl ->
     ret fr = returned cl /\
     (returned cl < 0 ->
      map at_interface (calls fr) = handler_indices (interface c) 0)) /\
  (handler_indices (interface c) 0 = [] ->
     calls fr = [] /\ ret fr = - EOPNOTSUPP) /\
  (calls fr = [] -> handler_indices (interface c) 0 = []) /\
  (ret fr, world fr) = dispatch_spec c ctrl w.
Proof.
  intros fr.
  assert (Hc : calls fr = setup_calls (interface c) 0 ctrl w).
  { subst fr. unfold android_setup_config. rewrite setup_loop_calls. reflexivity. }
  assert (Hr : ret fr = match last (calls fr) with
                        | Some cl => returned cl
                        | None => - EOPNOTSUPP
                        end).
  { rewrite Hc. subst fr. unfold android_setup_config.
    rewrite setup_loop_ret. reflexivity. }
  split.
  { intros i. rewrite handler_indices_elem, Nat.sub_0_r.
    split; [intros [_ H]; exact H|intros H; split; [lia|exact H]]. }
  split; [apply handler_indices_sorted|].
  repeat split.
  - rewrite Hc. apply setup_calls_order.
  - rewrite Hc in *. eapply setup_calls_stop; eassumption.
  - assert (Hl : length (calls fr) = S n).
    { rewrite Hc in *. eapply setup_calls_stop; eassumption. }
    rewrite Hr, last_lookup, Hl. simpl. rewrite H. reflexivity.
  - rewrite Hr, H. reflexivity.
  - intros Hneg. rewrite Hc in *. eapply setup_calls_exhaust; eassumption.
  - rewrite Hc. apply setup_calls_nil. assumption.
  - rewrite Hr. rewrite Hc.
    apply (setup_calls_nil _ 0%nat ctrl w) in H. rewrite H. reflexivity.
  - rewrite Hc. apply setup_calls_nil.
  - subst fr. unfold android_setup_config, dispatch_spec.
    rewrite setup_loop_forward_spec. reflexivity.
Qed.

(** C10: every handler is handed the local copy of the request, equal to
    the caller's request except that [wIndex] holds the index of the
    interface; what the handlers see and return does not depend on the
    [wIndex] of the caller; the caller's request is left as it was. *)
Theorem android_setup_config_private_copy (c : usb_configuration) (ctrl : usb_ctrlrequest) (w : W) :
  let fr := android_setup_config c ctrl w in
  Forall (fun cl =>
            seen cl = set_wIndex ctrl (cpu_to_le16 (Z.of_nat (at_interface cl))) /\
            (Z.of_nat (at_interface cl) < 65536 ->
             wIndex (seen cl) = Z.of_nat (at_interface cl)))
         (calls fr) /\
  ctrl_arg fr = ctrl /\
  (forall v,
     let fr' := android_setup_config c (set_wIndex ctrl v) w in
     calls fr' = calls fr /\ ret fr' = ret fr /\ world fr' = world fr /\
     ctrl_arg fr' = set_wIndex ctrl v).
Proof.
  intros fr. subst fr. unfold android_setup_config.
  repeat split.
  - rewrite setup_loop_calls. simpl.
    eapply Forall_impl; [apply setup_calls_seen|].
    intros cl Hs. split; [exact Hs|]. intros Hlt. rewrite Hs. simpl.
    unfold cpu_to_le16. apply Z.mod_small. lia.
  - apply setup_loop_ctrl_arg.
  - rewrite !setup_loop_calls. simpl. apply setup_calls_wIndex.
  - pose proof (setup_loop_forward_spec (interface c) 0
      {| ctrl_arg := set_wIndex ctrl v; tmp_ctrl := set_wIndex ctrl v;
         ret := - EOPNOTSUPP; world := w; calls := [] |}) as H1.
    pose proof (setup_loop_forward_spec (interface c) 0
      {| ctrl_arg := ctrl; tmp_ctrl := ctrl;
         ret := - EOPNOTSUPP; world := w; calls := [] |}) as H2.
    simpl in H1, H2. rewrite forward_spec_wIndex in H1.
    rewrite <- H2 in H1. congruence.
  - pose proof (setup_loop_forward_spec (interface c) 0
      {| ctrl_arg := set_wIndex ctrl v; tmp_ctrl := set_wIndex ctrl v;
         ret := - EOPNOTSUPP; world := w; calls := [] |}) as H1.
    pose proof (setup_loop_forward_spec (interface c) 0
      {| ctrl_arg := ctrl; tmp_ctrl := ctrl;
         ret := - EOPNOTSUPP; world := w; calls := [] |}) as H2.
    simpl in H1, H2. rewrite forward_spec_wIndex in H1.
    rewrite <- H2 in H1. congruence.
  - apply setup_loop_ctrl_arg.
Qed.

(** ** Registration and the binding gate *)

Lemma wrap_int_small (x : Z) :
  -2147483648 <= x <= INT_MAX -> wrap_int x = x.
Proof.
  unfold wrap_int, INT_MAX. intros H.
  rewrite Z.mod_small; lia.
Qed.


Lemma binds_emit (e : event) (s : android_state) :
  binds (emit e s) =
  (binds s + if event_eqb enter_bind_functions e then 1 else 0)%nat.
Proof.
  unfold binds, emit. simpl. rewrite List.filter_app, length_app. simpl.
  destruct e; reflexivity.
Qed.

(** [bind_functions] touches the configuration and the log only. *)
Lemma bind_loop_frame (names : list string) :
  forall s,
    _android_dev (bind_loop names s) = _android_dev s /\
    _functions (bind_loop names s) = _functions s /\
    _registered_function_count (bind_loop names s) = _registered_function_count s /\
    device_desc (bind_loop names s) = device_desc s /\
    binds (bind_loop names s) = binds s.
Proof.
  induction names as [|nm names IH]; intros s; simpl; [tauto|].
  destruct (get_function nm (_functions s)) as [f|].
  - destruct (IH (set_config_driver (emit (call_bind_config nm) s)
                    (bind_config f (android_config_driver s))))
      as (H1 & H2 & H3 & H4 & H5).
    rewrite H1, H2, H3, H4, H5. repeat split.
    unfold binds. simpl. rewrite List.filter_app, length_app. simpl. lia.
  - destruct (IH (emit (pr_err_not_found nm) s)) as (H1 & H2 & H3 & H4 & H5).
    rewrite H1, H2, H3, H4, H5. repeat split.
    rewrite binds_emit. simpl. lia.
Qed.

Lemma bind_functions_frame (dev : android_dev) (s : android_state) :
  _android_dev (bind_functions dev s) = _android_dev s /\
  _functions (bind_functions dev s) = _functions s /\
  _registered_function_count (bind_functions dev s) = _registered_function_count s /\
  device_desc (bind_functions dev s) = device_desc s /\
  binds (bind_functions dev s) = S (binds s).
Proof.
  unfold bind_functions.
  destruct (bind_loop_frame (d_functions dev) (emit enter_bind_functions s))
    as (H1 & H2 & H3 & H4 & H5).
  rewrite H1, H2, H3, H4, H5, binds_emit. simpl. repeat split. lia.
Qed.

(** What a register call does to the globals. *)
Lemma register_frame (f : android_usb_function) (s : android_state) :
  let s' := android_register_function f s in
  _android_dev s' = _android_dev s /\
  _functions s' = _functions s ++ [f] /\
  _registered_function_count s' = wrap_int (_registered_function_count s + 1) /\
  device_desc s' = device_desc s /\
  binds s' = (binds s + if gate s' then 1 else 0)%nat /\
  (gate s' = false ->
   android_config_driver s' = android_config_driver s /\
   klog s' = klog s ++ [pr_info_register (a_name f)]).
Proof.
  unfold android_register_function. cbv zeta.
  set (s1 := set_registry (emit (pr_info_register (a_name f)) s) _ _).
  assert (Hb : binds s1 = binds s).
  { subst s1. unfold binds. simpl. rewrite List.filter_app, length_app.
    simpl. lia. }
  assert (Hd : _android_dev s1 = _android_dev s) by reflexivity.
  destruct (_android_dev s1) as [dev|] eqn:Hdev.
  - destruct (bool_decide (is_Some (config dev)) &&
              (_registered_function_count s1 =? num_functions dev)) eqn:Hg.
    + destruct (bind_functions_frame dev s1) as (H1 & H2 & H3 & H4 & H5).
      unfold gate. rewrite H1, H2, H3, H4, H5, Hdev, Hg, Hb.
      repeat split; try discriminate; try congruence. lia.
    + unfold gate. rewrite Hdev, Hg, Hb.
      repeat split; try congruence. lia.
  - unfold gate. rewrite Hdev, Hb.
    repeat split; try congruence. lia.
Qed.

(** What the attach event does to the globals. *)
Lemma attach_frame (c : config_ref) (s : android_state) (dev : android_dev) :
  _android_dev s = Some dev ->
  exists s',
    android_bind_config c s = Some s' /\
    _android_dev s' = Some (set_config dev (Some c)) /\
    _functions s' = _functions s /\
    _registered_function_count s' = _registered_function_count s /\
    device_desc s' = device_desc s /\
    binds s' = (binds s + if gate s' then 1 else 0)%nat /\
    (gate s' = false ->
     android_config_driver s' = android_config_driver s /\ klog s' = klog s).
Proof.
  intros Hdev. unfold android_bind_config. rewrite Hdev. simpl.
  change (num_functions (set_config dev (Some c))) with (num_functions dev).
  set (dev1 := set_config dev (Some c)).
  set (s1 := set_dev s (Some dev1)).
  assert (Hg1 : forall t, _android_dev t = Some dev1 ->
            _registered_function_count t = _registered_function_count s ->
            gate t = (_registered_function_count s =? num_functions dev)).
  { intros t Ht Hc. unfold gate. rewrite Ht, Hc. reflexivity. }
  destruct (_registered_function_count s =? num_functions dev) eqn:Hg.
  - eexists. split; [reflexivity|].
    destruct (bind_functions_frame dev1 s1) as (H1 & H2 & H3 & H4 & H5).
    rewrite (Hg1 _ H1 H3), H1, H2, H3, H4, H5.
    repeat split; try discriminate. unfold binds. simpl. lia.
  - eexists. split; [reflexivity|].
    rewrite (Hg1 s1 eq_refl eq_refl).
    repeat split. unfold binds. simpl. lia.
Qed.


Lemma gate_false_count (s : android_state) (dev : android_dev) :
  _android_dev s = Some dev ->
  _registered_function_count s <> num_functions dev ->
  gate s = false.
Proof.
  intros Hd Hc. unfold gate. rewrite Hd.
  apply Z.eqb_neq in Hc. rewrite Hc. apply andb_false_r.
Qed.

Lemma gate_false_config (s : android_state) (dev : android_dev) :
  _android_dev s = Some dev -> config dev = None -> gate s = false.
Proof. intros Hd Hc. unfold gate. rewrite Hd, Hc. reflexivity. Qed.


Lemma num_functions_nonneg (dev : android_dev) : 0 <= num_functions dev.
Proof. unfold num_functions. lia. Qed.

Lemma registers_cons_register f evs :
  registers (Register f :: evs) = S (registers evs).
Proof. reflexivity. Qed.

(** Once the count has passed the expected number nothing binds. *)
Lemma run_over_complete (evs : list call) :
  forall s dev,
    _android_dev s = Some dev ->
    num_functions dev < _registered_function_count s ->
    _registered_function_count s + Z.of_nat (registers evs) <= INT_MAX ->
    exists s',
      run evs s = Some s' /\ binds s' = binds s /\
      android_config_driver s' = android_config_driver s.
Proof.
  induction evs as [|e evs IH]; intros s dev Hd Hn Hmax; simpl.
  - eauto.
  - pose proof (num_functions_nonneg dev) as Hnn.
    destruct e as [f|c]; simpl.
    + rewrite registers_cons_register in Hmax.
      destruct (register_frame f s) as (H1 & _ & H3 & _ & H5 & H6).
      set (s1 := android_register_function f s) in *.
      rewrite wrap_int_small in H3 by (unfold INT_MAX in *; lia).
      rewrite Hd in H1.
      assert (Hg : gate s1 = false) by (eapply gate_false_count; eauto; lia).
      rewrite Hg in H5. destruct (H6 Hg) as [H7 _].
      destruct (IH s1 dev H1) as (s' & Hr & Hb & Hc); [lia|lia|].
      exists s'. repeat split; [exact Hr|lia|congruence].
    + destruct (attach_frame c s dev Hd) as (s1 & -> & H1 & _ & H3 & _ & H5 & H6).
      simpl.
      assert (Hg : gate s1 = false).
      { eapply gate_false_count; eauto.
        change (num_functions (set_config dev (Some c))) with (num_functions dev).
        lia. }
      rewrite Hg in H5. destruct (H6 Hg) as [H7 _].
      destruct (IH s1 _ H1) as (s' & Hr & Hb & Hc).
      * change (num_functions (set_config dev (Some c))) with (num_functions dev). lia.
      * unfold registers in *. simpl in Hmax. lia.
      * exists s'. repeat split; [exact Hr|lia|congruence].
Qed.





(** C9: the gate is an equality test, so from a state in which the count
    exceeds the expected number no run of register calls and attach
    events (the counter staying within [int]) enters [bind_functions],
    and the configuration is left as it was: when nothing was bound
    before, nothing is bound for the rest of the session. *)
Theorem overcount_never_binds (evs : list call) (s : android_state) (dev : android_dev) :
  _android_dev s = Some dev ->
  num_functions dev < _registered_function_count s ->
  _registered_function_count s + Z.of_nat (registers evs) <= INT_MAX ->
  exists s',
    run evs s = Some s' /\ binds s' = binds s /\
    android_config_driver s' = android_config_driver s.
Proof. apply run_over_complete. Qed.

Lemma get_function_app (nm : string) (l : list android_usb_function) (f : android_usb_function) :
  get_function nm (l ++ [f]) =
  match get_function nm l with
  | Some g => Some g
  | None => if streq nm (a_name f) then Some f else None
  end.
Proof.
  induction l as [|x l IH]; simpl; [reflexivity|].
  destruct (streq nm (a_name x)); [reflexivity|exact IH].
Qed.

Lemma register_retests (f : android_usb_function) (s : android_state) (dev : android_dev) :
  _android_dev s = Some dev ->
  android_register_function f s =
  if gate (after_list_add f s)
  then bind_functions dev (after_list_add f s) else after_list_add f s.
Proof.
  intros Hd. unfold android_register_function, gate. cbv zeta.
  change (set_registry (emit (pr_info_register (a_name f)) s)
            (_functions (emit (pr_info_register (a_name f)) s) ++ [f])
            (wrap_int (_registered_function_count
                         (emit (pr_info_register (a_name f)) s) + 1)))
    with (after_list_add f s).
  assert (H : _android_dev (after_list_add f s) = Some dev) by exact Hd.
  rewrite H. reflexivity.
Qed.



(** ** Enabling and disabling *)

Lemma lnot_3 (x : Z) : lnot (lnot (lnot x)) = lnot x.
Proof. unfold lnot. destruct (x =? 0); reflexivity. Qed.

Lemma edge_test (enable : Z) (fn : usb_function) :
  negb (lnot (lnot (disabled fn)) =? lnot enable) = true <-> ~ same_state enable fn.
Proof.
  unfold same_state, lnot.
  destruct (Z.eqb_spec (disabled fn) 0) as [Hd|Hd];
    destruct (Z.eqb_spec enable 0) as [He|He]; simpl; split; intros H;
    try discriminate; try reflexivity; try tauto.
Qed.

(** C7: a call that asks for the state the function is in already
    returns with every global as it was: both descriptors, every
    [disabled] flag and the log, so that no reconnect is asked for. *)
Theorem android_enable_function_same_state
    (k : kconfig) (f : nat) (enable : Z) (s : android_state) (fn : usb_function) :
  functions (android_config_driver s) !! f = Some fn ->
  same_state enable fn ->
  android_enable_function k f enable s = Some s.
Proof.
  intros Hf Hs. unfold android_enable_function. rewrite Hf. simpl.
  destruct (negb _) eqn:E; [|reflexivity].
  apply edge_test in E. contradiction.
Qed.

(** The result of an edge outside the RNDIS block. *)
Lemma enable_edge_plain
    (k : kconfig) (f : nat) (enable : Z) (s : android_state)
    (dev : android_dev) (fn : usb_function) :
  _android_dev s = Some dev ->
  functions (android_config_driver s) !! f = Some fn ->
  ~ same_state enable fn ->
  takes_rndis_branch k fn = false ->
  let cfg := set_functions (android_config_driver s)
               (alter (fun fn => set_disabled fn (lnot enable)) f
                      (functions (android_config_driver s))) in
  let pid := cpu_to_le16 (get_product_id dev cfg) in
  android_enable_function k f enable s =
  Some {| _android_dev :=
            match cdev dev with
            | Some cd => Some (set_cdev dev (Some {| desc := set_idProduct (desc cd) pid |}))
            | None => Some dev
            end;
          _functions := _functions s;
          _registered_function_count := _registered_function_count s;
          device_desc := set_idProduct (device_desc s) pid;
          android_config_driver := cfg;
          klog := klog s ++
            [call_usb_composite_force_reset (bool_decide (is_Some (cdev dev)))] |}.
Proof.
  intros Hd Hf He Hr cfg pid.
  unfold android_enable_function. rewrite Hf. simpl.
  apply edge_test in He. rewrite He.
  unfold takes_rndis_branch in Hr. rewrite Hr. simpl. rewrite Hd. simpl.
  unfold usb_function_set_enabled. simpl.
  assert (Ha : alter (fun fn0 => set_disabled fn0 (lnot (lnot (lnot enable)))) f
                 (functions (android_config_driver s)) =
               alter (fun fn0 => set_disabled fn0 (lnot enable)) f
                 (functions (android_config_driver s))).
  { apply list_alter_ext; [|reflexivity]. intros x _. rewrite lnot_3. reflexivity. }
  rewrite Ha. fold cfg. fold pid.
  destruct (cdev dev) as [cd|] eqn:Hc;
    unfold usb_composite_force_reset, emit, set_dev, set_device_desc,
      set_config_driver; simpl; rewrite ?Hd; reflexivity.
Qed.

(** Through the RNDIS block with no handle attached the call writes
    through the NULL [dev->cdev]: it has no result. *)
Lemma enable_rndis_no_handle_faults
    (k : kconfig) (f : nat) (enable : Z) (s : android_state)
    (dev : android_dev) (fn : usb_function) :
  _android_dev s = Some dev ->
  cdev dev = None ->
  functions (android_config_driver s) !! f = Some fn ->
  ~ same_state enable fn ->
  takes_rndis_branch k fn = true ->
  android_enable_function k f enable s = None.
Proof.
  intros Hd Hc Hf He Hr.
  unfold android_enable_function. rewrite Hf. simpl.
  apply edge_test in He. rewrite He.
  unfold takes_rndis_branch in Hr. rewrite Hr.
  unfold rndis_block. simpl. rewrite Hd. simpl. rewrite Hc. reflexivity.
Qed.

(** C4, amended: on an edge while no framework handle is attached and
    outside the RNDIS block, the flag of the function is flipped, the
    product id selected for the new flags is written into [device_desc],
    no descriptor of a handle is written, and
    [usb_composite_force_reset] is called once all the same, with NULL
    for the handle. *)
Theorem android_enable_function_no_handle
    (k : kconfig) (f : nat) (enable : Z) (s : android_state)
    (dev : android_dev) (fn : usb_function) :
  _android_dev s = Some dev ->
  cdev dev = None ->
  functions (android_config_driver s) !! f = Some fn ->
  ~ same_state enable fn ->
  takes_rndis_branch k fn = false ->
  exists s',
    android_enable_function k f enable s = Some s' /\
    functions (android_config_driver s') !! f = Some (set_disabled fn (lnot enable)) /\
    idProduct (device_desc s') =
      cpu_to_le16 (get_product_id dev (android_config_driver s')) /\
    _android_dev s' = Some dev /\
    klog s' = klog s ++ [call_usb_composite_force_reset false] /\
    reset_calls s' = S (reset_calls s).
Proof.
  intros Hd Hc Hf He Hr.
  rewrite (enable_edge_plain k f enable s dev fn Hd Hf He Hr).
  rewrite Hc. eexists. split; [reflexivity|]. simpl.
  repeat split.
  - rewrite list_lookup_alter_eq, Hf. reflexivity.
  - unfold reset_calls. simpl. rewrite List.filter_app, length_app. simpl. lia.
Qed.

Lemma rndis_loop_spec (fs : list usb_function) :
  forall i enable s pre,
    functions (android_config_driver s) = pre ++ fs ->
    length pre = i ->
    rndis_loop fs i enable s =
    set_config_driver s
      (set_functions (android_config_driver s)
         (pre ++ map (conflict_set enable) fs)).
Proof.
  induction fs as [|func fs IH]; intros i enable s pre Hfs Hlen; simpl.
  - rewrite <- Hfs. destruct s as [d r n dd [fl il] lg]. reflexivity.
  - match goal with |- rndis_loop _ _ _ ?t = _ => set (s1 := t) end.
    assert (H1 : functions (android_config_driver s1) =
                 (pre ++ [conflict_set enable func]) ++ fs).
    { subst s1. unfold conflict_set, rndis_conflict.
      destruct (_ || _).
      - unfold usb_function_set_enabled. simpl. rewrite Hfs.
        replace i with (length pre + 0)%nat by lia.
        rewrite alter_app_r. simpl. rewrite <- app_assoc. reflexivity.
      - rewrite Hfs, <- app_assoc. reflexivity. }
    rewrite (IH (S i) enable s1 _ H1) by (rewrite length_app; simpl; lia).
    rewrite <- app_assoc. simpl.
    subst s1. destruct (_ || _); reflexivity.
Qed.

(** The result of an edge through the RNDIS block. *)
Lemma enable_edge_rndis
    (k : kconfig) (f : nat) (enable : Z) (s : android_state)
    (dev : android_dev) (cd : usb_composite_dev) (fn : usb_function) :
  _android_dev s = Some dev ->
  cdev dev = Some cd ->
  functions (android_config_driver s) !! f = Some fn ->
  ~ same_state enable fn ->
  takes_rndis_branch k fn = true ->
  let cfg := set_functions (android_config_driver s)
               (map (conflict_set enable)
                  (alter (fun fn => set_disabled fn (lnot enable)) f
                         (functions (android_config_driver s)))) in
  let class := if negb (enable =? 0) then rndis_class k
               else USB_CLASS_PER_INTERFACE in
  let pid := cpu_to_le16 (get_product_id dev cfg) in
  android_enable_function k f enable s =
  Some {| _android_dev :=
            Some (set_cdev dev
              (Some {| desc := set_idProduct (set_bDeviceClass (desc cd) class) pid |}));
          _functions := _functions s;
          _registered_function_count := _registered_function_count s;
          device_desc := set_idProduct (device_desc s) pid;
          android_config_driver := cfg;
          klog := klog s ++ [call_usb_composite_force_reset true] |}.
Proof.
  intros Hd Hc Hf He Hr cfg class pid.
  unfold android_enable_function. rewrite Hf. simpl.
  apply edge_test in He. rewrite He.
  unfold takes_rndis_branch in Hr. rewrite Hr.
  unfold rndis_block. simpl. rewrite Hd. simpl. rewrite Hc. simpl.
  rewrite (rndis_loop_spec _ 0 enable _ []) by reflexivity.
  simpl.
  assert (Ha : alter (fun fn0 => set_disabled fn0 (lnot (lnot (lnot enable)))) f
                 (functions (android_config_driver s)) =
               alter (fun fn0 => set_disabled fn0 (lnot enable)) f
                 (functions (android_config_driver s))).
  { apply list_alter_ext; [|reflexivity]. intros x _. rewrite lnot_3. reflexivity. }
  rewrite Ha. reflexivity.
Qed.

Lemma product_matches_same_flag (p : android_usb_product) (fs fs' : list usb_function) :
  Forall2 same_flag fs fs' -> product_matches p fs = product_matches p fs'.
Proof.
  induction 1 as [|a b fs fs' [Hn Hf] _ IH]; simpl; [reflexivity|].
  unfold product_has_function. rewrite !lnot_lnot, Hn, Hf, IH. reflexivity.
Qed.

Lemma get_product_id_same_flag (dev dev' : android_dev) (c c' : usb_configuration) :
  products dev = products dev' ->
  d_product_id dev = d_product_id dev' ->
  Forall2 same_flag (functions c) (functions c') ->
  get_product_id dev c = get_product_id dev' c'.
Proof.
  intros Hp Hi Hf. unfold get_product_id. rewrite <- Hp, <- Hi.
  destruct (products dev) as [ps|]; [|reflexivity].
  assert (He : first_product ps c = first_product ps c').
  { clear Hp. induction ps as [|p ps IH]; simpl; [reflexivity|].
    unfold product_matches_functions.
    rewrite (product_matches_same_flag p _ _ Hf), IH. reflexivity. }
  rewrite He. reflexivity.
Qed.

Lemma same_flag_refl (a : usb_function) : same_flag a a.
Proof. split; reflexivity. Qed.

Lemma rndis_not_conflict (k : kconfig) (fn : usb_function) :
  takes_rndis_branch k fn = true -> rndis_conflict fn = false.
Proof.
  unfold takes_rndis_branch, rndis_conflict, streq. intros H.
  apply andb_prop in H. destruct H as [_ H].
  apply String.eqb_eq in H. rewrite H. reflexivity.
Qed.

(** Off and on again outside the RNDIS block: every flag is back. *)
Lemma toggle_plain_functions (f : nat) (e : Z) (fs : list usb_function) (fn : usb_function) :
  fs !! f = Some fn -> disabled fn = 0 -> e <> 0 ->
  alter (fun x => set_disabled x (lnot e)) f
        (alter (fun x => set_disabled x (lnot 0)) f fs) = fs.
Proof.
  intros Hf Hd He. rewrite list_alter_alter_eq.
  apply list_eq. intros i. destruct (decide (f = i)) as [<-|Hne].
  - rewrite list_lookup_alter_eq, Hf. simpl. f_equal.
    destruct fn as [n d h]. simpl in *. subst d. unfold set_disabled, lnot. simpl.
    destruct (Z.eqb_spec e 0); [contradiction|reflexivity].
  - rewrite list_lookup_alter_ne by assumption. reflexivity.
Qed.

(** Off and on again through the RNDIS block: every function is left
    with its name and with the flag it had, as far as [!!disabled] goes. *)
Lemma toggle_rndis_functions
    (k : kconfig) (f : nat) (e : Z) (fs : list usb_function) (fn : usb_function) :
  fs !! f = Some fn -> disabled fn = 0 -> e <> 0 ->
  takes_rndis_branch k fn = true ->
  Forall (fun func => rndis_conflict func = true -> disabled func <> 0) fs ->
  Forall2 same_flag
    (map (conflict_set e)
       (alter (fun x => set_disabled x (lnot e)) f
          (map (conflict_set 0)
             (alter (fun x => set_disabled x (lnot 0)) f fs))))
    fs.
Proof.
  intros Hf Hd He Hr Hall.
  pose proof (rndis_not_conflict k fn Hr) as Hnc.
  apply Forall2_same_length_lookup. split.
  { rewrite length_map, length_alter, length_map, length_alter. reflexivity. }
  intros i x y Hx Hy.
  change (map (conflict_set e)) with (fmap (M:=list) (conflict_set e)) in Hx.
  rewrite list_lookup_fmap in Hx.
  destruct (decide (f = i)) as [<-|Hne].
  - rewrite list_lookup_alter_eq in Hx.
    change (map (conflict_set 0)) with (fmap (M:=list) (conflict_set 0)) in Hx.
    rewrite list_lookup_fmap, list_lookup_alter_eq, Hf in Hx.
    rewrite Hf in Hy. injection Hy as <-. simpl in Hx. injection Hx as <-.
    unfold conflict_set, rndis_conflict in *. simpl. rewrite Hnc. simpl.
    rewrite Hnc. split; simpl; [reflexivity|].
    rewrite Hd. unfold lnot. destruct (Z.eqb_spec e 0); [contradiction|reflexivity].
  - rewrite list_lookup_alter_ne in Hx by assumption.
    change (map (conflict_set 0)) with (fmap (M:=list) (conflict_set 0)) in Hx.
    rewrite list_lookup_fmap, list_lookup_alter_ne, Hy in Hx by assumption.
    simpl in Hx. injection Hx as <-.
    rewrite Forall_lookup in Hall. specialize (Hall i y Hy).
    unfold conflict_set at 2. destruct (rndis_conflict y) eqn:Hcy.
    + unfold conflict_set, rndis_conflict in *. simpl. rewrite Hcy.
      split; simpl; [reflexivity|].
      specialize (Hall eq_refl). apply Z.eqb_neq in Hall. rewrite Hall.
      unfold lnot. destruct (Z.eqb_spec e 0); [contradiction|reflexivity].
    + unfold conflict_set. rewrite Hcy. apply same_flag_refl.
Qed.

Lemma set_idProduct_back (d : usb_device_descriptor) (a : Z) :
  set_idProduct (set_idProduct d a) (idProduct d) = d.
Proof. destruct d. reflexivity. Qed.

(** C8, amended: for an enabled function, from a state whose product id
    is the one selected for the current flags and, when the call takes
    the RNDIS block, in which the handle is attached, the device class is
    the one of RNDIS and the functions that block switches are disabled,
    disabling and enabling again leaves the device descriptor and the
    descriptor of the handle (product id and device class) as they
    were. *)
Theorem toggle_restores_identity
    (k : kconfig) (f : nat) (e : Z) (s : android_state)
    (dev : android_dev) (fn : usb_function) :
  _android_dev s = Some dev ->
  functions (android_config_driver s) !! f = Some fn ->
  disabled fn = 0 ->
  e <> 0 ->
  descriptor_in_sync s dev ->
  (takes_rndis_branch k fn = true ->
   (exists cd, cdev dev = Some cd /\ bDeviceClass (desc cd) = rndis_class k) /\
   Forall (fun func => rndis_conflict func = true -> disabled func <> 0)
          (functions (android_config_driver s))) ->
  exists s1 s2,
    android_enable_function k f 0 s = Some s1 /\
    android_enable_function k f e s1 = Some s2 /\
    device_desc s2 = device_desc s /\
    _android_dev s2 = Some dev.
Proof.
  intros Hd Hf Hdis He [Hsync Hcd] Hrndis.
  assert (Hoff : ~ same_state 0 fn).
  { unfold same_state. rewrite Hdis. intros [_ H]. apply H; reflexivity. }
  assert (Hon : forall x, ~ same_state e (set_disabled x (lnot 0))).
  { intros x. unfold same_state. simpl. intros [H _].
    specialize (H He). discriminate. }
  destruct (takes_rndis_branch k fn) eqn:Hr.
  - destruct (Hrndis eq_refl) as [(cd & Hc & Hclass) Hall].
    pose proof (rndis_not_conflict k fn Hr) as Hnc.
    rewrite (enable_edge_rndis k f 0 s dev cd fn Hd Hc Hf Hoff Hr).
    eexists. eexists. split; [reflexivity|].
    erewrite (enable_edge_rndis k f e _ _ _ (set_disabled fn (lnot 0)));
      [| reflexivity | reflexivity | | apply Hon | exact Hr ].
    2:{ simpl.
        change (map (conflict_set 0)) with (fmap (M:=list) (conflict_set 0)).
        rewrite list_lookup_fmap, list_lookup_alter_eq, Hf. simpl.
        unfold conflict_set, rndis_conflict in *. simpl. rewrite Hnc. reflexivity. }
    split; [reflexivity|]. simpl.
    match goal with |- context [get_product_id ?d1 ?c1] =>
      match c1 with context [conflict_set e] =>
        assert (Hpid : get_product_id d1 c1 = get_product_id dev (android_config_driver s))
      end end.
    { apply get_product_id_same_flag; try reflexivity. simpl.
      eapply toggle_rndis_functions; eassumption. }
    rewrite Hpid. clear Hpid.
    specialize (Hcd cd Hc). rewrite <- Hsync.
    split.
    + apply set_idProduct_back.
    + f_equal. destruct dev as [dc dcfg dp dfn dpid dv]. simpl in *. subst dc.
      unfold set_cdev. simpl. do 3 f_equal.
      destruct cd as [[a b c0 d0 e0 g0]]. simpl in *. subst.
      destruct (Z.eqb_spec e 0); [contradiction|]. reflexivity.
  - rewrite (enable_edge_plain k f 0 s dev fn Hd Hf Hoff Hr).
    destruct (cdev dev) as [cd|] eqn:Hc;
      (eexists; eexists; split; [reflexivity|]).
    + erewrite (enable_edge_plain k f e _ _ (set_disabled fn (lnot 0)));
        [| reflexivity | | apply Hon | exact Hr ].
      2:{ simpl. rewrite list_lookup_alter_eq, Hf. reflexivity. }
      split; [reflexivity|]. simpl.
      rewrite (toggle_plain_functions f e _ fn Hf Hdis He).
      assert (Hpid : forall d1, products d1 = products dev ->
                d_product_id d1 = d_product_id dev ->
                get_product_id d1
                  (set_functions
                     (set_functions (android_config_driver s)
                        (alter (fun x => set_disabled x (lnot 0)) f
                           (functions (android_config_driver s))))
                     (functions (android_config_driver s)))
                = get_product_id dev (android_config_driver s)).
      { intros d1 H1 H2. apply get_product_id_same_flag; auto.
        simpl. apply Forall2_same_length_lookup. split; [reflexivity|].
        intros i x y Hx Hy. rewrite Hx in Hy. injection Hy as <-.
        apply same_flag_refl. }
      rewrite Hpid by reflexivity.
      specialize (Hcd cd eq_refl). rewrite <- Hsync.
      split.
      * apply set_idProduct_back.
      * f_equal. destruct dev as [dc dcfg dp dfn dpid dv]. simpl in *. subst dc.
        unfold set_cdev. simpl. do 3 f_equal.
        destruct cd as [[a b c0 d0 e0 g0]]. simpl in *. subst. reflexivity.
    + erewrite (enable_edge_plain k f e _ dev (set_disabled fn (lnot 0)));
        [| reflexivity | | apply Hon | exact Hr ].
      2:{ simpl. rewrite list_lookup_alter_eq, Hf. reflexivity. }
      split; [reflexivity|]. simpl. rewrite Hc.
      rewrite (toggle_plain_functions f e _ fn Hf Hdis He).
      assert (Hpid : get_product_id dev
                  (set_functions
                     (set_functions (android_config_driver s)
                        (alter (fun x => set_disabled x (lnot 0)) f
                           (functions (android_config_driver s))))
                     (functions (android_config_driver s)))
                = get_product_id dev (android_config_driver s)).
      { apply get_product_id_same_flag; auto.
        simpl. apply Forall2_same_length_lookup. split; [reflexivity|].
        intros i x y Hx Hy. rewrite Hx in Hy. injection Hy as <-.
        apply same_flag_refl. }
      rewrite Hpid, <- Hsync.
      split; [apply set_idProduct_back|reflexivity].
Qed.

(** ** Further properties of the registry and of binding *)

Lemma streq_true (a b : string) : streq a b = true <-> a = b.
Proof. unfold streq. apply String.eqb_eq. Qed.

Lemma streq_false (a b : string) : streq a b = false <-> a <> b.
Proof. unfold streq. apply String.eqb_neq. Qed.

Lemma get_function_none_iff (nm : string) (l : list android_usb_function) :
  get_function nm l = None <-> Forall (fun g => a_name g <> nm) l.
Proof.
  induction l as [|x l IH]; simpl.
  - split; [constructor|reflexivity].
  - destruct (streq nm (a_name x)) eqn:E.
    + apply streq_true in E. split; [discriminate|].
      intros H. inversion H; subst. congruence.
    + apply streq_false in E. rewrite IH. split.
      * intros H. constructor; [congruence|exact H].
      * intros H. inversion H; assumption.
Qed.

(** X1: [get_function] returns the first registered driver that carries
    the name, and NULL exactly when no registered driver carries it. *)
Theorem get_function_first_match (nm : string) (l : list android_usb_function) :
  (forall f,
     get_function nm l = Some f <->
     exists pre post,
       l = pre ++ f :: post /\ a_name f = nm /\
       Forall (fun g => a_name g <> nm) pre) /\
  (get_function nm l = None <-> Forall (fun g => a_name g <> nm) l).
Proof.
  split; [|apply get_function_none_iff].
  induction l as [|x l IH]; intros f; simpl.
  - split; [discriminate|]. intros (pre & post & H & _). destruct pre; discriminate.
  - destruct (streq nm (a_name x)) eqn:E.
    + apply streq_true in E. split.
      * intros [= <-]. exists [], l. repeat split; [congruence|constructor].
      * intros (pre & post & H & Hn & Hpre). destruct pre as [|y pre].
        -- simpl in H. congruence.
        -- simpl in H. injection H as -> ->. inversion Hpre; subst. congruence.
    + apply streq_false in E. rewrite IH. split.
      * intros (pre & post & -> & Hn & Hpre). exists (x :: pre), post.
        repeat split; [exact Hn|]. constructor; [congruence|exact Hpre].
      * intros (pre & post & H & Hn & Hpre). destruct pre as [|y pre].
        -- simpl in H. injection H as -> ->. congruence.
        -- simpl in H. injection H as -> ->. inversion Hpre; subst.
           exists pre, post. auto.
Qed.

(** X2: after a register call under a name not yet taken, a lookup of
    that name returns the driver just registered; lookups of every other
    name answer as before, whether the name was taken or not. *)
Theorem register_then_lookup (f : android_usb_function) (s : android_state) :
  (get_function (a_name f) (_functions s) = None ->
   get_function (a_name f) (_functions (android_register_function f s)) = Some f) /\
  (forall nm, nm <> a_name f ->
     get_function nm (_functions (android_register_function f s)) =
     get_function nm (_functions s)).
Proof.
  destruct (register_frame f s) as (_ & H2 & _).
  rewrite H2. split.
  - intros Hn. rewrite get_function_app, Hn.
    replace (streq (a_name f) (a_name f)) with true; [reflexivity|].
    symmetry. apply streq_true. reflexivity.
  - intros nm Hne. rewrite get_function_app.
    destruct (get_function nm (_functions s)); [reflexivity|].
    apply streq_false in Hne. rewrite Hne. reflexivity.
Qed.

Lemma bind_loop_spec (names : list string) :
  forall s,
    klog (bind_loop names s) = klog s ++ bind_events names (_functions s) /\
    android_config_driver (bind_loop names s) =
      bound_config names (_functions s) (android_config_driver s).
Proof.
  induction names as [|nm names IH]; intros s; simpl.
  - split; [symmetry; apply app_nil_r|reflexivity].
  - destruct (get_function nm (_functions s)) as [f|] eqn:E.
    + destruct (IH (set_config_driver (emit (call_bind_config nm) s)
                      (bind_config f (android_config_driver s)))) as [H1 H2].
      rewrite H1, H2. simpl. rewrite <- app_assoc. split; reflexivity.
    + destruct (IH (emit (pr_err_not_found nm) s)) as [H1 H2].
      rewrite H1, H2. simpl. rewrite <- app_assoc. split; reflexivity.
Qed.

(** X3: [bind_functions] goes through the expected names in the order of
    the platform data: for each name it logs the call of the callback of
    the driver registered under it, or the error line when there is
    none and goes on; the configuration is the result of the callbacks
    found, applied in that order; the log gets one line per expected
    name. *)
Theorem bind_functions_platform_order (dev : android_dev) (s : android_state) :
  klog (bind_functions dev s) =
    klog s ++ enter_bind_functions :: bind_events (d_functions dev) (_functions s) /\
  android_config_driver (bind_functions dev s) =
    bound_config (d_functions dev) (_functions s) (android_config_driver s) /\
  Z.of_nat (length (bind_events (d_functions dev) (_functions s))) = num_functions dev.
Proof.
  unfold bind_functions.
  destruct (bind_loop_spec (d_functions dev) (emit enter_bind_functions s)) as [H1 H2].
  rewrite H1, H2. simpl. rewrite <- app_assoc. repeat split.
  unfold bind_events, num_functions. rewrite length_map. reflexivity.
Qed.

Lemma get_function_perm (nm : string) (l1 l2 : list android_usb_function) :
  l1 ≡ₚ l2 -> NoDup (map a_name l1) ->
  get_function nm l1 = get_function nm l2.
Proof.
  induction 1 as [|x l1 l2 Hp IH|x y l|l1 l2 l3 Hp1 IH1 Hp2 IH2]; intros Hnd.
  - reflexivity.
  - simpl in *. apply NoDup_cons in Hnd as [_ Hnd]. rewrite IH by exact Hnd.
    reflexivity.
  - simpl in *. apply NoDup_cons in Hnd as [Hx _].
    destruct (streq nm (a_name x)) eqn:Ex; destruct (streq nm (a_name y)) eqn:Ey;
      try reflexivity.
    apply streq_true in Ex, Ey. exfalso. apply Hx. rewrite <- Ey, Ex. left.
  - rewrite IH1 by exact Hnd. apply IH2.
    assert (Hm : map a_name l1 ≡ₚ map a_name l2) by (apply Permutation_map; exact Hp1).
    rewrite <- Hm. exact Hnd.
Qed.

Lemma bound_config_perm (names : list string) (l1 l2 : list android_usb_function) :
  l1 ≡ₚ l2 -> NoDup (map a_name l1) ->
  forall c, bound_config names l1 c = bound_config names l2 c.
Proof.
  intros Hp Hnd. unfold bound_config.
  induction names as [|nm names IH]; intros c; simpl; [reflexivity|].
  rewrite (get_function_perm nm l1 l2 Hp Hnd). apply IH.
Qed.

(** X4: with no two drivers registered under one name, the configuration
    [bind_functions] builds does not depend on the order in which the
    drivers registered. *)
Theorem bind_functions_registration_order
    (dev : android_dev) (s1 s2 : android_state) :
  _functions s1 ≡ₚ _functions s2 ->
  NoDup (map a_name (_functions s1)) ->
  android_config_driver s1 = android_config_driver s2 ->
  android_config_driver (bind_functions dev s1) =
  android_config_driver (bind_functions dev s2).
Proof.
  intros Hp Hnd Hc.
  unfold bind_functions.
  destruct (bind_loop_spec (d_functions dev) (emit enter_bind_functions s1)) as [_ H1].
  destruct (bind_loop_spec (d_functions dev) (emit enter_bind_functions s2)) as [_ H2].
  rewrite H1, H2. simpl. rewrite Hc. apply bound_config_perm; assumption.
Qed.

Lemma register_bound (f : android_usb_function) (s : android_state) (dev : android_dev) :
  _android_dev s = Some dev ->
  gate (android_register_function f s) = true ->
  android_config_driver (android_register_function f s) =
    bound_config (d_functions dev) (_functions s ++ [f]) (android_config_driver s).
Proof.
  intros Hd. unfold android_register_function. cbv zeta.
  set (s1 := set_registry (emit (pr_info_register (a_name f)) s) _ _).
  assert (Hd1 : _android_dev s1 = Some dev) by exact Hd.
  rewrite Hd1.
  destruct (bool_decide (is_Some (config dev)) &&
            (_registered_function_count s1 =? num_functions dev)) eqn:Hg.
  - intros _. unfold bind_functions.
    destruct (bind_loop_spec (d_functions dev) (emit enter_bind_functions s1)) as [_ H].
    rewrite H. reflexivity.
  - unfold gate. rewrite Hd1, Hg. discriminate.
Qed.

Lemma attach_bound (c : config_ref) (s s' : android_state) (dev : android_dev) :
  _android_dev s = Some dev ->
  android_bind_config c s = Some s' ->
  gate s' = true ->
  android_config_driver s' =
    bound_config (d_functions dev) (_functions s) (android_config_driver s).
Proof.
  intros Hd. unfold android_bind_config. rewrite Hd. simpl.
  change (num_functions (set_config dev (Some c))) with (num_functions dev).
  destruct (_registered_function_count s =? num_functions dev) eqn:Hg.
  - intros [= <-] _. unfold bind_functions.
    match goal with |- context [bind_loop ?n ?t] =>
      destruct (bind_loop_spec n t) as [_ H] end.
    rewrite H. reflexivity.
  - intros [= <-] Hgt. exfalso.
    assert (Hf : gate (set_dev s (Some (set_config dev (Some c)))) = false).
    { eapply gate_false_count; [reflexivity|]. simpl.
      change (num_functions (set_config dev (Some c))) with (num_functions dev).
      apply Z.eqb_neq. exact Hg. }
    congruence.
Qed.

Lemma gate_true_intro (s : android_state) (dev : android_dev) :
  _android_dev s = Some dev -> is_Some (config dev) ->
  _registered_function_count s = num_functions dev ->
  gate s = true.
Proof.
  intros Hd Hc Hn. unfold gate. rewrite Hd, Hn, Z.eqb_refl.
  rewrite bool_decide_eq_true_2 by exact Hc. reflexivity.
Qed.

Lemma run_app (a b : list call) :
  forall s, run (a ++ b) s = run a s ≫= run b.
Proof.
  induction a as [|e a IH]; intros s; simpl; [reflexivity|].
  destruct (step e s) as [s1|]; simpl; [apply IH|reflexivity].
Qed.

(** Register calls before the configuration is attached only fill the
    registry. *)
Lemma run_registers_unattached (fs : list android_usb_function) :
  forall s dev,
    _android_dev s = Some dev -> config dev = None ->
    0 <= _registered_function_count s ->
    _registered_function_count s + Z.of_nat (length fs) <= INT_MAX ->
    exists s',
      run (map Register fs) s = Some s' /\
      _android_dev s' = Some dev /\
      _functions s' = _functions s ++ fs /\
      _registered_function_count s' =
        _registered_function_count s + Z.of_nat (length fs) /\
      android_config_driver s' = android_config_driver s /\
      binds s' = binds s.
Proof.
  induction fs as [|f fs IH]; intros s dev Hd Hc H0 Hmax; simpl.
  - exists s. rewrite app_nil_r. repeat split; try reflexivity; [exact Hd|lia].
  - destruct (register_frame f s) as (H1 & H2 & H3 & _ & H5 & H6).
    set (s1 := android_register_function f s) in *.
    simpl length in Hmax.
    rewrite wrap_int_small in H3 by (unfold INT_MAX in *; lia).
    rewrite Hd in H1.
    pose proof (gate_false_config s1 dev H1 Hc) as Hg.
    rewrite Hg in H5. destruct (H6 Hg) as [H7 _].
    destruct (IH s1 dev H1 Hc) as (s' & Hr & Ha & Hb & Hcnt & Hcfg & Hbd); [lia|lia|].
    exists s'. rewrite Hr, Ha, Hb, Hcnt, Hcfg, Hbd, H2, H3, H7, H5.
    rewrite <- app_assoc. simpl length. repeat split; lia.
Qed.

(** With the configuration attached, the register calls that complete
    the count bind once, at the last of them. *)
Lemma run_registers_completing (fs : list android_usb_function) :
  forall s dev,
    _android_dev s = Some dev -> is_Some (config dev) ->
    0 <= _registered_function_count s ->
    fs <> [] ->
    _registered_function_count s + Z.of_nat (length fs) = num_functions dev ->
    num_functions dev <= INT_MAX ->
    exists s',
      run (map Register fs) s = Some s' /\
      _functions s' = _functions s ++ fs /\
      binds s' = S (binds s) /\
      android_config_driver s' =
        bound_config (d_functions dev) (_functions s ++ fs) (android_config_driver s).
Proof.
  induction fs as [|f fs IH]; intros s dev Hd Hc H0 Hne Hn Hmax; [congruence|].
  simpl. simpl length in Hn.
  destruct (register_frame f s) as (H1 & H2 & H3 & _ & H5 & H6).
  pose proof (register_bound f s dev Hd) as Hb.
  set (s1 := android_register_function f s) in *.
  rewrite wrap_int_small in H3 by (unfold INT_MAX in *; lia).
  rewrite Hd in H1.
  destruct fs as [|f' fs].
  - simpl in *.
    assert (Hg : gate s1 = true) by (apply (gate_true_intro s1 dev); auto; lia).
    rewrite Hg in H5. exists s1. repeat split; [exact H2|lia|auto].
  - assert (Hg : gate s1 = false) by (eapply gate_false_count; eauto; simpl length in Hn; lia).
    rewrite Hg in H5. destruct (H6 Hg) as [H7 _].
    destruct (IH s1 dev H1 Hc) as (s' & Hr & Ha & Hbd & Hcfg);
      [lia|discriminate|simpl length in *; lia|exact Hmax|].
    exists s'. rewrite Hr, Ha, Hbd, Hcfg, H2, H7, <- app_assoc.
    repeat split. lia.
Qed.

(** Registrations, the attach event, and the remaining registrations,
    the expected number in all. *)
Lemma run_all_registered
    (pre post : list android_usb_function) (c : config_ref)
    (s0 : android_state) (dev : android_dev) :
  _android_dev s0 = Some dev -> config dev = None ->
  0 <= _registered_function_count s0 ->
  _registered_function_count s0 + Z.of_nat (length pre) + Z.of_nat (length post)
    = num_functions dev ->
  num_functions dev <= INT_MAX ->
  exists s',
    run (map Register pre ++ Attach c :: map Register post) s0 = Some s' /\
    binds s' = S (binds s0) /\
    android_config_driver s' =
      bound_config (d_functions dev) (_functions s0 ++ pre ++ post)
        (android_config_driver s0) /\
    _functions s' = _functions s0 ++ pre ++ post.
Proof.
  intros Hd Hc H0 Hn Hmax.
  destruct (run_registers_unattached pre s0 dev Hd Hc H0)
    as (s1 & Hr1 & Hd1 & Hf1 & Hc1 & Hcfg1 & Hb1); [lia|].
  rewrite run_app, Hr1. simpl.
  destruct (attach_frame c s1 dev Hd1) as (s2 & Hr2 & Hd2 & Hf2 & Hc2 & _ & Hb2 & Hfr2).
  pose proof (attach_bound c s1 s2 dev Hd1 Hr2) as Hbound.
  rewrite Hr2. simpl.
  destruct post as [|f post].
  - simpl in *.
    assert (Hg : gate s2 = true).
    { apply (gate_true_intro s2 _ Hd2); [eexists; reflexivity|].
      change (num_functions (set_config dev (Some c))) with (num_functions dev). lia. }
    rewrite Hg in Hb2. exists s2. rewrite app_nil_r.
    repeat split; [lia| |congruence].
    rewrite (Hbound Hg), Hf1, Hcfg1. reflexivity.
  - assert (Hg : gate s2 = false).
    { eapply gate_false_count; eauto.
      change (num_functions (set_config dev (Some c))) with (num_functions dev).
      simpl length in Hn. lia. }
    rewrite Hg in Hb2. destruct (Hfr2 Hg) as [Hcfg2 _].
    destruct (run_registers_completing (f :: post) s2 _ Hd2)
      as (s3 & Hr3 & Hf3 & Hb3 & Hcfg3);
      [eexists; reflexivity|lia|discriminate| |exact Hmax|].
    { change (num_functions (set_config dev (Some c))) with (num_functions dev). lia. }
    exists s3. rewrite Hr3, Hb3, Hcfg3, Hf3, Hf2, Hf1, Hcfg2, Hcfg1, <- app_assoc.
    repeat split. lia.
Qed.

(** X5: when exactly the expected number of drivers register, some
    before and some after the one attach event, [bind_functions] is
    entered exactly once, and the configuration is the one built from
    all the registered drivers in the order of the expected names. *)
Theorem all_registered_binds_once
    (pre post : list android_usb_function) (c : config_ref)
    (s0 : android_state) (dev : android_dev) :
  _android_dev s0 = Some dev -> config dev = None ->
  0 <= _registered_function_count s0 ->
  _registered_function_count s0 + Z.of_nat (length pre) + Z.of_nat (length post)
    = num_functions dev ->
  num_functions dev <= INT_MAX ->
  exists s',
    run (map Register pre ++ Attach c :: map Register post) s0 = Some s' /\
    binds s' = S (binds s0) /\
    android_config_driver s' =
      bound_config (d_functions dev) (_functions s0 ++ pre ++ post)
        (android_config_driver s0) /\
    _functions s' = _functions s0 ++ pre ++ post.
Proof. apply run_all_registered. Qed.

(** X6: two sessions that start with an empty registry and a count of
    zero and in which the same drivers, under distinct names and as many
    as are expected, register in different orders and on different sides
    of the one attach event end with the same configuration and the same
    number of binds. *)
Theorem registration_order_independent
    (pre1 post1 pre2 post2 : list android_usb_function) (c : config_ref)
    (s0 : android_state) (dev : android_dev) :
  _android_dev s0 = Some dev -> config dev = None ->
  _functions s0 = [] -> _registered_function_count s0 = 0 ->
  Z.of_nat (length (pre1 ++ post1)) = num_functions dev ->
  num_functions dev <= INT_MAX ->
  pre1 ++ post1 ≡ₚ pre2 ++ post2 ->
  NoDup (map a_name (pre1 ++ post1)) ->
  exists s1 s2,
    run (map Register pre1 ++ Attach c :: map Register post1) s0 = Some s1 /\
    run (map Register pre2 ++ Attach c :: map Register post2) s0 = Some s2 /\
    android_config_driver s1 = android_config_driver s2 /\
    binds s1 = binds s2.
Proof.
  intros Hd Hc Hf H0 Hn Hmax Hp Hnd.
  pose proof (Permutation_length Hp) as Hlen.
  rewrite !length_app in *.
  destruct (run_all_registered pre1 post1 c s0 dev Hd Hc)
    as (s1 & Hr1 & Hb1 & Hc1 & _); [lia|lia|exact Hmax|].
  destruct (run_all_registered pre2 post2 c s0 dev Hd Hc)
    as (s2 & Hr2 & Hb2 & Hc2 & _); [lia|lia|exact Hmax|].
  exists s1, s2. repeat split; [exact Hr1|exact Hr2| |lia].
  rewrite Hc1, Hc2, Hf. simpl. apply bound_config_perm; assumption.
Qed.

Lemma run_under_complete (evs : list call) :
  forall s dev,
    _android_dev s = Some dev ->
    0 <= _registered_function_count s ->
    _registered_function_count s + Z.of_nat (registers evs) < num_functions dev ->
    num_functions dev <= INT_MAX ->
    exists s',
      run evs s = Some s' /\ binds s' = binds s /\
      android_config_driver s' = android_config_driver s.
Proof.
  induction evs as [|[f|c] evs IH]; intros s dev Hd H0 Hn Hmax; simpl.
  - eauto.
  - rewrite registers_cons_register in Hn.
    destruct (register_frame f s) as (H1 & _ & H3 & _ & H5 & H6).
    set (s1 := android_register_function f s) in *.
    rewrite wrap_int_small in H3 by (unfold INT_MAX in *; lia).
    rewrite Hd in H1.
    assert (Hg : gate s1 = false) by (eapply gate_false_count; eauto; lia).
    rewrite Hg in H5. destruct (H6 Hg) as [H7 _].
    destruct (IH s1 dev H1) as (s' & Hr & Hb & Hc); [lia|lia|exact Hmax|].
    exists s'. repeat split; [exact Hr|lia|congruence].
  - destruct (attach_frame c s dev Hd) as (s1 & -> & H1 & _ & H3 & _ & H5 & H6).
    simpl.
    assert (Hr' : registers (Attach c :: evs) = registers evs) by reflexivity.
    rewrite Hr' in Hn.
    assert (Hg : gate s1 = false).
    { eapply gate_false_count; eauto.
      change (num_functions (set_config dev (Some c))) with (num_functions dev). lia. }
    rewrite Hg in H5. destruct (H6 Hg) as [H7 _].
    destruct (IH s1 _ H1) as (s' & Hr & Hb & Hc); [lia| |exact Hmax|].
    { change (num_functions (set_config dev (Some c))) with (num_functions dev). lia. }
    exists s'. repeat split; [exact Hr|lia|congruence].
Qed.

(** X7: as long as fewer drivers have registered than are expected,
    neither a register call nor an attach event enters
    [bind_functions]: the configuration stays as it was. *)
Theorem undercount_never_binds (evs : list call) (s : android_state) (dev : android_dev) :
  _android_dev s = Some dev ->
  0 <= _registered_function_count s ->
  _registered_function_count s + Z.of_nat (registers evs) < num_functions dev ->
  num_functions dev <= INT_MAX ->
  exists s',
    run evs s = Some s' /\ binds s' = binds s /\
    android_config_driver s' = android_config_driver s.
Proof. apply run_under_complete. Qed.

Lemma length_registered (evs : list call) : length (registered evs) = registers evs.
Proof.
  induction evs as [|[f|c] evs IH]; simpl; [reflexivity| |exact IH].
  rewrite registers_cons_register, IH. reflexivity.
Qed.

(** X8: over any run of register calls and attach events the registry
    only grows, by the registered drivers in the order of the calls, the
    count grows by their number, and the device descriptor is not
    written. *)
Theorem run_registry_grows (evs : list call) :
  forall s dev,
    _android_dev s = Some dev ->
    0 <= _registered_function_count s ->
    _registered_function_count s + Z.of_nat (registers evs) <= INT_MAX ->
    exists s',
      run evs s = Some s' /\
      _functions s' = _functions s ++ registered evs /\
      _registered_function_count s' =
        _registered_function_count s + Z.of_nat (registers evs) /\
      device_desc s' = device_desc s.
Proof.
  induction evs as [|[f|c] evs IH]; intros s dev Hd H0 Hmax; simpl.
  - exists s. rewrite app_nil_r. repeat split. unfold registers. simpl. lia.
  - rewrite registers_cons_register in *.
    destruct (register_frame f s) as (H1 & H2 & H3 & H4 & _).
    set (s1 := android_register_function f s) in *.
    rewrite wrap_int_small in H3 by (unfold INT_MAX in *; lia).
    rewrite Hd in H1.
    destruct (IH s1 dev H1) as (s' & Hr & Hf & Hc & Hdd); [lia|lia|].
    exists s'. rewrite Hr, Hf, Hc, Hdd, H2, H3, H4, <- app_assoc.
    repeat split. lia.
  - destruct (attach_frame c s dev Hd) as (s1 & -> & H1 & H2 & H3 & H4 & _).
    simpl.
    assert (Hr' : registers (Attach c :: evs) = registers evs) by reflexivity.
    rewrite Hr' in *.
    destruct (IH s1 _ H1) as (s' & Hr & Hf & Hc & Hdd); [lia|lia|].
    exists s'. rewrite Hr, Hf, Hc, Hdd, H2, H3, H4. repeat split.
Qed.

(** ** Further properties of the selection *)

Lemma has_name_In (nm : string) (l : list string) :
  (has_name nm l = 1 /\ In nm l) \/ (has_name nm l = 0 /\ ~ In nm l).
Proof.
  induction l as [|x l IH]; simpl.
  - right. tauto.
  - destruct (streq nm x) eqn:E.
    + apply streq_true in E. left. auto.
    + apply streq_false in E. destruct IH as [[H1 H2]|[H1 H2]].
      * left. auto.
      * right. split; [exact H1|]. intros [H|H]; [congruence|contradiction].
Qed.

(** X9: whether a profile matches depends on its list of names only
    through which functions of the configuration it names: the order of
    the list, repetitions in it and names that no function of the
    configuration carries make no difference. *)
Theorem product_matches_by_membership
    (p q : android_usb_product) (c : usb_configuration) :
  Forall (fun f => In (name f) (p_functions p) <-> In (name f) (p_functions q))
         (functions c) ->
  product_matches_functions p c = product_matches_functions q c.
Proof.
  unfold product_matches_functions.
  induction 1 as [|f fs Hf _ IH]; simpl; [reflexivity|].
  unfold product_has_function. rewrite IH.
  destruct (has_name_In (name f) (p_functions p)) as [[-> Hp]|[-> Hp]];
    destruct (has_name_In (name f) (p_functions q)) as [[-> Hq]|[-> Hq]];
    tauto || reflexivity.
Qed.

Lemma product_matches_perm (p : android_usb_product) (fs fs' : list usb_function) :
  fs ≡ₚ fs' -> product_matches p fs = product_matches p fs'.
Proof.
  induction 1 as [|x l1 l2 Hp IH|x y l|l1 l2 l3 Hp1 IH1 Hp2 IH2]; simpl.
  - reflexivity.
  - rewrite IH. reflexivity.
  - destruct (_ =? _); destruct (_ =? _); reflexivity.
  - congruence.
Qed.

Lemma first_product_ext (ps : list android_usb_product) (c c' : usb_configuration) :
  (forall p, product_matches_functions p c = product_matches_functions p c') ->
  first_product ps c = first_product ps c'.
Proof.
  intros H. induction ps as [|p ps IH]; simpl; [reflexivity|].
  rewrite H, IH. reflexivity.
Qed.

(** X10: the product id selected does not depend on the order in which
    the functions stand in the configuration, nor on which nonzero value
    a [disabled] field holds, nor on the setup handlers. *)
Theorem get_product_id_order_and_flags (dev : android_dev) :
  (forall c c', functions c ≡ₚ functions c' ->
     get_product_id dev c = get_product_id dev c') /\
  (forall c c', Forall2 same_flag (functions c) (functions c') ->
     get_product_id dev c = get_product_id dev c').
Proof.
  split; intros c c' H.
  - unfold get_product_id. destruct (products dev) as [ps|]; [|reflexivity].
    rewrite (first_product_ext ps c c'); [reflexivity|].
    intros p. apply product_matches_perm. exact H.
  - apply get_product_id_same_flag; auto.
Qed.

(** ** Further properties of the enable transition *)

Lemma map_alter_keeps {B : Type} (pr : usb_function -> B) (g : usb_function -> usb_function) :
  (forall x, pr (g x) = pr x) ->
  forall i l, map pr (alter g i l) = map pr l.
Proof.
  intros H i l. revert i.
  induction l as [|x l IH]; intros [|i]; simpl; try reflexivity.
  - f_equal. apply H.
  - f_equal. apply IH.
Qed.

Lemma map_map_keeps {B : Type} (pr : usb_function -> B) (g : usb_function -> usb_function) :
  (forall x, pr (g x) = pr x) ->
  forall l, map pr (map g l) = map pr l.
Proof.
  intros H l. induction l as [|x l IH]; simpl; [reflexivity|].
  rewrite H, IH. reflexivity.
Qed.

Lemma conflict_set_name (e : Z) (x : usb_function) : name (conflict_set e x) = name x.
Proof. unfold conflict_set. destruct (rndis_conflict x); reflexivity. Qed.

Lemma conflict_set_setup (e : Z) (x : usb_function) : setup (conflict_set e x) = setup x.
Proof. unfold conflict_set. destruct (rndis_conflict x); reflexivity. Qed.

Lemma reset_calls_snoc (s : android_state) (l : list event) (b : bool) :
  klog s = l ++ [call_usb_composite_force_reset b] ->
  reset_calls s =
  S (length (List.filter
               (fun e => match e with
                         | call_usb_composite_force_reset _ => true
                         | _ => false
                         end) l)).
Proof.
  intros H. unfold reset_calls. rewrite H, List.filter_app, length_app. simpl. lia.
Qed.

(** X11: every call that changes the state of a function leaves both
    copies of the product id equal to the id selected for the new flags,
    whatever they held before, and calls the reconnect primitive once;
    this needs [_android_dev] set and, in the RNDIS block, the handle
    attached. *)
Theorem enable_edge_syncs
    (k : kconfig) (f : nat) (e : Z) (s : android_state)
    (dev : android_dev) (fn : usb_function) :
  _android_dev s = Some dev ->
  functions (android_config_driver s) !! f = Some fn ->
  ~ same_state e fn ->
  (takes_rndis_branch k fn = true -> is_Some (cdev dev)) ->
  exists s' dev',
    android_enable_function k f e s = Some s' /\
    _android_dev s' = Some dev' /\
    descriptor_in_sync s' dev' /\
    reset_calls s' = S (reset_calls s).
Proof.
  intros Hd Hf He Hh.
  destruct (takes_rndis_branch k fn) eqn:Hr.
  - destruct (Hh eq_refl) as [cd Hc].
    rewrite (enable_edge_rndis k f e s dev cd fn Hd Hc Hf He Hr).
    eexists. eexists. split; [reflexivity|]. split; [reflexivity|].
    split; [split|].
    + reflexivity.
    + simpl. intros cd' [= <-]. reflexivity.
    + erewrite reset_calls_snoc; reflexivity.
  - rewrite (enable_edge_plain k f e s dev fn Hd Hf He Hr).
    destruct (cdev dev) as [cd|] eqn:Hc.
    + eexists. eexists. split; [reflexivity|]. split; [reflexivity|].
      split; [split|].
      * reflexivity.
      * simpl. intros cd' [= <-]. reflexivity.
      * erewrite reset_calls_snoc; reflexivity.
    + eexists. eexists. split; [reflexivity|]. split; [reflexivity|].
      split; [split|].
      * reflexivity.
      * simpl. intros cd'. rewrite Hc. discriminate.
      * erewrite reset_calls_snoc; reflexivity.
Qed.

(** X12: a call of [android_enable_function] never touches the registry
    or the count, never adds, removes, renames or reorders a function of
    the configuration or changes a handler or an interface, and writes
    no field of [device_desc] but [idProduct]; the flag of another
    function changes only in the RNDIS block, and there only for the
    functions that block names. *)
Theorem enable_frame
    (k : kconfig) (f : nat) (e : Z) (s s' : android_state) (fn : usb_function) :
  functions (android_config_driver s) !! f = Some fn ->
  android_enable_function k f e s = Some s' ->
  _functions s' = _functions s /\
  _registered_function_count s' = _registered_function_count s /\
  map name (functions (android_config_driver s')) =
    map name (functions (android_config_driver s)) /\
  map setup (functions (android_config_driver s')) =
    map setup (functions (android_config_driver s)) /\
  interface (android_config_driver s') = interface (android_config_driver s) /\
  set_idProduct (device_desc s') (idProduct (device_desc s)) = device_desc s /\
  (forall j fj,
     j <> f ->
     functions (android_config_driver s) !! j = Some fj ->
     takes_rndis_branch k fn && rndis_conflict fj = false ->
     functions (android_config_driver s') !! j = Some fj).
Proof.
  intros Hf Hs.
  assert (Hdd : set_idProduct (device_desc s) (idProduct (device_desc s)) = device_desc s)
    by (destruct (device_desc s); reflexivity).
  assert (Hdd' : forall a, set_idProduct (set_idProduct (device_desc s) a)
                             (idProduct (device_desc s)) = device_desc s)
    by (intros a; destruct (device_desc s); reflexivity).
  destruct (negb (lnot (lnot (disabled fn)) =? lnot e)) eqn:Hedge.
  2:{ unfold android_enable_function in Hs. rewrite Hf in Hs. simpl in Hs.
      rewrite Hedge in Hs. injection Hs as <-. repeat split; auto. }
  pose proof (proj1 (edge_test e fn) Hedge) as He.
  destruct (_android_dev s) as [dev|] eqn:Hd.
  2:{ exfalso. unfold android_enable_function in Hs. rewrite Hf in Hs. simpl in Hs.
      rewrite Hedge in Hs. unfold rndis_block in Hs.
      destruct (CONFIG_USB_ANDROID_RNDIS k && streq (name fn) "rndis");
        simpl in Hs; rewrite Hd in Hs; discriminate. }
  destruct (takes_rndis_branch k fn) eqn:Hr.
  - destruct (cdev dev) as [cd|] eqn:Hc.
    2:{ rewrite (enable_rndis_no_handle_faults k f e s dev fn Hd Hc Hf He Hr) in Hs.
        discriminate. }
    rewrite (enable_edge_rndis k f e s dev cd fn Hd Hc Hf He Hr) in Hs.
    injection Hs as <-. simpl.
    repeat split; auto.
    + rewrite (map_map_keeps name), (map_alter_keeps name); auto using conflict_set_name.
    + rewrite (map_map_keeps setup), (map_alter_keeps setup); auto using conflict_set_setup.
    + intros j fj Hj Hfj Hcf. simpl in Hcf.
      change (map (conflict_set e)) with (fmap (M:=list) (conflict_set e)).
      rewrite list_lookup_fmap, list_lookup_alter_ne, Hfj by congruence. simpl.
      unfold conflict_set. rewrite Hcf. reflexivity.
  - rewrite (enable_edge_plain k f e s dev fn Hd Hf He Hr) in Hs.
    injection Hs as <-. simpl.
    repeat split; auto.
    + apply (map_alter_keeps name). reflexivity.
    + apply (map_alter_keeps setup). reflexivity.
    + intros j fj Hj Hfj _. rewrite list_lookup_alter_ne by congruence. exact Hfj.
Qed.

(** X13: in the RNDIS block, enabling RNDIS writes the RNDIS class into
    the descriptor of the handle and leaves every function named
    usb_mass_storage, mtp or adb disabled; disabling RNDIS writes the
    per-interface class and leaves every such function enabled, also
    those that were disabled before RNDIS was enabled. *)
Theorem rndis_edge_outcome
    (k : kconfig) (f : nat) (e : Z) (s : android_state)
    (dev : android_dev) (cd : usb_composite_dev) (fn : usb_function) :
  _android_dev s = Some dev ->
  cdev dev = Some cd ->
  functions (android_config_driver s) !! f = Some fn ->
  ~ same_state e fn ->
  takes_rndis_branch k fn = true ->
  exists s' dev' cd',
    android_enable_function k f e s = Some s' /\
    _android_dev s' = Some dev' /\ cdev dev' = Some cd' /\
    bDeviceClass (desc cd') =
      (if e =? 0 then USB_CLASS_PER_INTERFACE else rndis_class k) /\
    Forall (fun func => rndis_conflict func = true ->
                        disabled func = if e =? 0 then 0 else 1)
           (functions (android_config_driver s')) /\
    functions (android_config_driver s') !! f = Some (set_disabled fn (lnot e)).
Proof.
  intros Hd Hc Hf He Hr.
  rewrite (enable_edge_rndis k f e s dev cd fn Hd Hc Hf He Hr).
  eexists. eexists. eexists. split; [reflexivity|]. split; [reflexivity|].
  split; [reflexivity|]. simpl. split; [|split].
  - destruct (e =? 0); reflexivity.
  - apply List.Forall_forall. intros x Hx.
    apply in_map_iff in Hx. destruct Hx as (y & <- & _).
    unfold conflict_set. destruct (rndis_conflict y) eqn:Hy.
    + intros _. simpl. apply lnot_lnot.
    + rewrite Hy. discriminate.
  - change (map (conflict_set e)) with (fmap (M:=list) (conflict_set e)).
    rewrite list_lookup_fmap, list_lookup_alter_eq, Hf. simpl.
    unfold conflict_set, rndis_conflict. simpl.
    pose proof (rndis_not_conflict k fn Hr) as Hn. unfold rndis_conflict in Hn.
    rewrite Hn. reflexivity.
Qed.

(** ** Further properties of the dispatch *)

Lemma setup_loop_same_handlers (l l' : list usb_function) :
  Forall2 (fun a b => setup a = setup b) l l' ->
  forall i fr, setup_loop l i fr = setup_loop l' i fr.
Proof.
  induction 1 as [|a b l l' Hab _ IH]; intros i fr; simpl; [reflexivity|].
  rewrite <- Hab. destruct (setup a) as [h|]; [|apply IH].
  destruct (0 <=? _); [reflexivity|apply IH].
Qed.

(** X14: the dispatch looks at the handlers of the interfaces only:
    whether a function is disabled, and what its name is, makes no
    difference to which handlers are called, to what they are handed and
    to the result. *)
Theorem android_setup_config_ignores_flags
    (c c' : usb_configuration) (ctrl : usb_ctrlrequest) (w : W) :
  Forall2 (fun a b => setup a = setup b) (interface c) (interface c') ->
  android_setup_config c ctrl w = android_setup_config c' ctrl w.
Proof.
  intros H. unfold android_setup_config. apply setup_loop_same_handlers. exact H.
Qed.

(** ** Probing and binding the composite device *)

(** X15: without platform data [android_probe] returns -ENODEV, writes
    nothing and does not register the composite driver; with platform
    data it registers the composite driver on globals in which the
    expected names and the catalog are those of the platform data while
    the registry, the count, the configuration, the handle and the
    attachment are as before: drivers registered before the probe stay
    registered and counted. *)
Theorem android_probe_keeps_registrations
    (reg : gadget_state -> option (Z * gadget_state)) (g : gadget_state) :
  android_probe reg None g = Some (- ENODEV, noted dev_warn_no_platform_data g) /\
  (forall pd dev,
     _android_dev (core g) = Some dev ->
     exists g1 dev1,
       android_probe reg (Some pd) g = reg g1 /\
       _android_dev (core g1) = Some dev1 /\
       d_functions dev1 = pd_functions pd /\
       products dev1 = pd_products pd /\
       cdev dev1 = cdev dev /\ config dev1 = config dev /\
       _functions (core g1) = _functions (core g) /\
       _registered_function_count (core g1) = _registered_function_count (core g) /\
       android_config_driver (core g1) = android_config_driver (core g) /\
       klog (core g1) = klog (core g)).
Proof.
  split; [reflexivity|].
  intros pd dev Hd. unfold android_probe. rewrite Hd. simpl.
  eexists. eexists. split; [reflexivity|]. simpl. repeat split.
Qed.

Lemma set_string_s_None (i : nat) (l : list usb_string) : set_string_s i None l = l.
Proof. reflexivity. Qed.


(** X17: the probe and the registrations compose: when the drivers
    registered before the probe, those registered between the probe and
    the attach event and those registered after it are as many as the
    platform data expects, [bind_functions] is entered once, and it
    binds by the names of the platform data. *)
Theorem probe_then_all_registered
    (reg : gadget_state -> option (Z * gadget_state)) (g : gadget_state)
    (pd : android_usb_platform_data) (dev : android_dev)
    (pre post : list android_usb_function) (c : config_ref) :
  _android_dev (core g) = Some dev ->
  config dev = None ->
  0 <= _registered_function_count (core g) ->
  _registered_function_count (core g) + Z.of_nat (length pre) + Z.of_nat (length post)
    = Z.of_nat (length (pd_functions pd)) ->
  Z.of_nat (length (pd_functions pd)) <= INT_MAX ->
  exists g1 s',
    android_probe reg (Some pd) g = reg g1 /\
    run (map Register pre ++ Attach c :: map Register post) (core g1) = Some s' /\
    binds s' = S (binds (core g)) /\
    android_config_driver s' =
      bound_config (pd_functions pd) (_functions (core g) ++ pre ++ post)
        (android_config_driver (core g)).
Proof.
  intros Hd Hc H0 Hn Hmax. unfold android_probe. rewrite Hd. simpl.
  eexists.
  match goal with |- exists s', reg ?g1 = _ /\ _ =>
    destruct (run_all_registered pre post c (core g1)
                {| cdev := cdev dev; config := config dev;
                   products := pd_products pd; d_functions := pd_functions pd;
                   d_product_id := if negb (pd_product_id pd =? 0)
                                   then pd_product_id pd else d_product_id dev;
                   version := if negb (pd_version pd =? 0)
                              then pd_version pd else version dev |})
      as (s' & Hr & Hb & Hcfg & _)
  end; try assumption; try reflexivity.
  exists s'. split; [reflexivity|]. split; [exact Hr|]. split; [exact Hb|exact Hcfg].
Qed.

Lemma android_bind_after_ids
    (id1 id2 id3 : Z) (add : gadget_state -> option (Z * gadget_state))
    (gcnum : Z) (cd : usb_composite_dev) (g : gadget_state) :
  0 <= id1 -> 0 <= id2 -> 0 <= id3 ->
  android_bind id1 id2 id3 add gcnum cd g =
  (rg ← add (with_string_ids id1 id2 id3 g);
   let g := snd rg in
   if negb (fst rg =? 0) then Some (fst rg, noted pr_err_usb_add_config_failed g) else
   let g :=
     if 0 <=? gcnum
     then with_core g (set_device_desc (core g)
            (set_bcdDevice (device_desc (core g)) (cpu_to_le16 (512 + gcnum))))
     else with_core (noted pr_warning_controller_not_recognized g)
            (set_device_desc (core g) (set_bcdDevice (device_desc (core g)) 39321)) in
   let g := noted call_usb_gadget_set_selfpowered g in
   dev ← _android_dev (core g);
   let dev := set_cdev dev (Some cd) in
   let product_id := get_product_id dev (android_config_driver (core g)) in
   let dd := set_idProduct (device_desc (core g)) (cpu_to_le16 product_id) in
   let dev := set_cdev dev (Some {| desc := set_idProduct (desc cd) (idProduct dd) |}) in
   Some (0, with_core g (set_device_desc (set_dev (core g) (Some dev)) dd))).
Proof.
  intros H1 H2 H3. unfold android_bind.
  apply Z.ltb_ge in H1, H2, H3. rewrite H1, H2, H3. reflexivity.
Qed.

(** X18: [android_bind] returns the first negative string id it is
    given, without calling [usb_add_config] and without touching the
    registry, the configuration, the handle, the product id or
    [bcdDevice]: when the first id is negative nothing is written; when
    the second is, the first has been written to the manufacturer string
    and to [device_desc.iManufacturer]; when the third is, the second
    has been written to the product string and to [device_desc.iProduct]
    as well.  When [usb_add_config] returns a nonzero status, that
    status is returned, the error line is logged and what
    [usb_add_config] left is not written any further: no handle is
    attached and no product id chosen. *)
Theorem android_bind_error_paths
    (id1 id2 id3 : Z) (add : gadget_state -> option (Z * gadget_state))
    (gcnum : Z) (cd : usb_composite_dev) (g : gadget_state) :
  (id1 < 0 -> android_bind id1 id2 id3 add gcnum cd g = Some (id1, g)) /\
  (0 <= id1 -> id2 < 0 ->
   android_bind id1 id2 id3 add gcnum cd g =
   Some (id2,
         {| core := core g;
            strings_dev := set_string_id STRING_MANUFACTURER_IDX id1 (strings_dev g);
            iManufacturer := id1 mod 256; iProduct := iProduct g;
            iSerialNumber := iSerialNumber g; calls_out := calls_out g |})) /\
  (0 <= id1 -> 0 <= id2 -> id3 < 0 ->
   android_bind id1 id2 id3 add gcnum cd g =
   Some (id3,
         {| core := core g;
            strings_dev :=
              set_string_id STRING_PRODUCT_IDX id2
                (set_string_id STRING_MANUFACTURER_IDX id1 (strings_dev g));
            iManufacturer := id1 mod 256; iProduct := id2 mod 256;
            iSerialNumber := iSerialNumber g; calls_out := calls_out g |})) /\
  (forall r g1,
     0 <= id1 -> 0 <= id2 -> 0 <= id3 ->
     add (with_string_ids id1 id2 id3 g) = Some (r, g1) -> r <> 0 ->
     android_bind id1 id2 id3 add gcnum cd g =
     Some (r, noted pr_err_usb_add_config_failed g1)).
Proof.
  split; [|split; [|split]].
  - intros H1. unfold android_bind.
    apply Z.ltb_lt in H1. rewrite H1. reflexivity.
  - intros H1 H2. unfold android_bind.
    apply Z.ltb_ge in H1. apply Z.ltb_lt in H2. rewrite H1. simpl. rewrite H2.
    reflexivity.
  - intros H1 H2 H3. unfold android_bind.
    apply Z.ltb_ge in H1, H2. apply Z.ltb_lt in H3. rewrite H1. simpl.
    rewrite H2. simpl. rewrite H3. reflexivity.
  - intros r g1 H1 H2 H3 Ha Hr.
    rewrite android_bind_after_ids by assumption. rewrite Ha. simpl.
    apply Z.eqb_neq in Hr. rewrite Hr. reflexivity.
Qed.

Lemma android_bind_ok
    (id1 id2 id3 : Z) (add : gadget_state -> option (Z * gadget_state))
    (gcnum : Z) (cd : usb_composite_dev) (g g1 : gadget_state) (dev : android_dev) :
  0 <= id1 -> 0 <= id2 -> 0 <= id3 ->
  add (with_string_ids id1 id2 id3 g) = Some (0, g1) ->
  _android_dev (core g1) = Some dev ->
  let pid := cpu_to_le16 (get_product_id dev (android_config_driver (core g1))) in
  let bcd := if 0 <=? gcnum then cpu_to_le16 (512 + gcnum) else 39321 in
  exists g',
    android_bind id1 id2 id3 add gcnum cd g = Some (0, g') /\
    _android_dev (core g') =
      Some (set_cdev dev (Some {| desc := set_idProduct (desc cd) pid |})) /\
    device_desc (core g') =
      set_idProduct (set_bcdDevice (device_desc (core g1)) bcd) pid /\
    android_config_driver (core g') = android_config_driver (core g1) /\
    _functions (core g') = _functions (core g1) /\
    _registered_function_count (core g') = _registered_function_count (core g1) /\
    klog (core g') = klog (core g1) /\
    strings_dev g' = strings_dev g1.
Proof.
  intros H1 H2 H3 Ha Hd pid bcd.
  rewrite android_bind_after_ids by assumption. rewrite Ha. simpl.
  destruct (0 <=? gcnum); simpl; rewrite Hd; simpl;
    (eexists; split; [reflexivity|]; simpl; repeat split).
Qed.

(** X19: when the three string ids are given and [usb_add_config]
    returns 0, [android_bind] returns 0 with the handle attached, both
    copies of the product id equal to the id selected for the functions
    then in the configuration, [bcdDevice] 0x0200 plus the controller
    number, or 0x9999 for a controller that is not recognised, and the
    registry, the count and the configuration as [usb_add_config] left
    them. *)
Theorem android_bind_success
    (id1 id2 id3 : Z) (add : gadget_state -> option (Z * gadget_state))
    (gcnum : Z) (cd : usb_composite_dev) (g g1 : gadget_state) (dev : android_dev) :
  0 <= id1 -> 0 <= id2 -> 0 <= id3 ->
  add (with_string_ids id1 id2 id3 g) = Some (0, g1) ->
  _android_dev (core g1) = Some dev ->
  exists g' dev' cd',
    android_bind id1 id2 id3 add gcnum cd g = Some (0, g') /\
    _android_dev (core g') = Some dev' /\
    cdev dev' = Some cd' /\ config dev' = config dev /\
    descriptor_in_sync (core g') dev' /\
    bcdDevice (device_desc (core g')) =
      (if 0 <=? gcnum then cpu_to_le16 (512 + gcnum) else 39321) /\
    android_config_driver (core g') = android_config_driver (core g1) /\
    _functions (core g') = _functions (core g1) /\
    _registered_function_count (core g') = _registered_function_count (core g1).
Proof.
  intros H1 H2 H3 Ha Hd.
  destruct (android_bind_ok id1 id2 id3 add gcnum cd g g1 dev H1 H2 H3 Ha Hd)
    as (g' & Hb & Hdev & Hdd & Hcfg & Hf & Hc & _).
  exists g'. eexists. eexists. split; [exact Hb|]. split; [exact Hdev|].
  split; [reflexivity|]. split; [reflexivity|].
  split; [split|].
  - rewrite Hdd, Hcfg. reflexivity.
  - simpl. intros cd' [= <-]. rewrite Hdd. reflexivity.
  - rewrite Hdd. repeat split; assumption.
Qed.

(** X20: when [android_bind] runs while no function is in the
    configuration yet (the drivers have not all registered) and the
    catalog is not empty, every profile matches and the product id
    written is the one of the first profile, not the fallback. *)
Theorem android_bind_unbound_first_profile
    (id1 id2 id3 : Z) (add : gadget_state -> option (Z * gadget_state))
    (gcnum : Z) (cd : usb_composite_dev) (g g1 : gadget_state) (dev : android_dev)
    (p : android_usb_product) (ps : list android_usb_product) :
  0 <= id1 -> 0 <= id2 -> 0 <= id3 ->
  add (with_string_ids id1 id2 id3 g) = Some (0, g1) ->
  _android_dev (core g1) = Some dev ->
  functions (android_config_driver (core g1)) = [] ->
  products dev = Some (p :: ps) ->
  exists g',
    android_bind id1 id2 id3 add gcnum cd g = Some (0, g') /\
    idProduct (device_desc (core g')) = cpu_to_le16 (product_id p).
Proof.
  intros H1 H2 H3 Ha Hd Hf Hp.
  destruct (android_bind_ok id1 id2 id3 add gcnum cd g g1 dev H1 H2 H3 Ha Hd)
    as (g' & Hb & _ & Hdd & _).
  exists g'. split; [exact Hb|]. rewrite Hdd. simpl.
  unfold get_product_id. rewrite Hp. simpl.
  unfold product_matches_functions. rewrite Hf. reflexivity.
Qed.

(** X21: while [_android_dev] is NULL (the module has not allocated it),
    register calls fill the registry and count, and none binds whatever
    the count; the attach event dereferences the NULL pointer. *)
Theorem register_before_init (fs : list android_usb_function) (c : config_ref) :
  forall s,
    _android_dev s = None ->
    android_bind_config c s = None /\
    exists s',
      run (map Register fs) s = Some s' /\
      _android_dev s' = None /\
      _functions s' = _functions s ++ fs /\
      binds s' = binds s /\
      android_config_driver s' = android_config_driver s.
Proof.
  induction fs as [|f fs IH]; intros s Hd.
  - split; [unfold android_bind_config; rewrite Hd; reflexivity|].
    exists s. rewrite app_nil_r. repeat split. exact Hd.
  - split; [unfold android_bind_config; rewrite Hd; reflexivity|].
    simpl.
    destruct (register_frame f s) as (H1 & H2 & _ & _ & H5 & H6).
    set (s1 := android_register_function f s) in *.
    rewrite Hd in H1.
    assert (Hg : gate s1 = false) by (unfold gate; rewrite H1; reflexivity).
    rewrite Hg in H5. destruct (H6 Hg) as [H7 _].
    destruct (IH s1 H1) as (_ & s' & Hr & Hn & Hf & Hb & Hc).
    exists s'. rewrite Hr, Hf, Hb, Hc, H2, H7, H5, <- app_assoc.
    repeat split; [exact Hn|lia].
Qed.

(** X22: with RNDIS support configured, a call that changes the state
    of the function named rndis while no handle is attached writes the
    device class through the NULL [dev->cdev]: the call has no result. *)
Theorem rndis_without_handle_faults
    (k : kconfig) (f : nat) (enable : Z) (s : android_state)
    (dev : android_dev) (fn : usb_function) :
  _android_dev s = Some dev ->
  cdev dev = None ->
  functions (android_config_driver s) !! f = Some fn ->
  ~ same_state enable fn ->
  takes_rndis_branch k fn = true ->
  android_enable_function k f enable s = None.
Proof. apply enable_rndis_no_handle_faults. Qed.

(** ** How calls of the enable transition compose *)

(** X23: outside the RNDIS block, two calls that change the state of two
    different functions give the same globals in either order: the same
    flags, the same product id in both descriptors and the same two
    calls of the reconnect primitive. *)
Theorem enable_calls_commute
    (k : kconfig) (f g : nat) (ef eg : Z) (s : android_state)
    (dev : android_dev) (fnf fng : usb_function) :
  _android_dev s = Some dev ->
  f <> g ->
  functions (android_config_driver s) !! f = Some fnf ->
  functions (android_config_driver s) !! g = Some fng ->
  ~ same_state ef fnf -> ~ same_state eg fng ->
  takes_rndis_branch k fnf = false -> takes_rndis_branch k fng = false ->
  exists s1 s2 t,
    android_enable_function k f ef s = Some s1 /\
    android_enable_function k g eg s1 = Some t /\
    android_enable_function k g eg s = Some s2 /\
    android_enable_function k f ef s2 = Some t.
Proof.
  intros Hd Hne Hf Hg Hef Heg Hrf Hrg.
  rewrite (enable_edge_plain k f ef s dev fnf Hd Hf Hef Hrf).
  rewrite (enable_edge_plain k g eg s dev fng Hd Hg Heg Hrg).
  destruct (cdev dev) as [cd|] eqn:Hc.
  - eexists. eexists. eexists. split; [reflexivity|].
    erewrite (enable_edge_plain k g eg _ _ fng);
      [| reflexivity | | exact Heg | exact Hrg ].
    2:{ simpl. rewrite list_lookup_alter_ne by congruence. exact Hg. }
    split; [reflexivity|]. split; [reflexivity|].
    erewrite (enable_edge_plain k f ef _ _ fnf);
      [| reflexivity | | exact Hef | exact Hrf ].
    2:{ simpl. rewrite list_lookup_alter_ne by congruence. exact Hf. }
    simpl.
    rewrite (list_alter_alter_ne _ _ (functions (android_config_driver s)) f g Hne).
    reflexivity.
  - eexists. eexists. eexists. split; [reflexivity|].
    erewrite (enable_edge_plain k g eg _ dev fng);
      [| reflexivity | | exact Heg | exact Hrg ].
    2:{ simpl. rewrite list_lookup_alter_ne by congruence. exact Hg. }
    split; [reflexivity|]. split; [reflexivity|].
    erewrite (enable_edge_plain k f ef _ dev fnf);
      [| reflexivity | | exact Hef | exact Hrf ].
    2:{ simpl. rewrite list_lookup_alter_ne by congruence. exact Hf. }
    simpl. rewrite Hc.
    rewrite (list_alter_alter_ne _ _ (functions (android_config_driver s)) f g Hne).
    reflexivity.
Qed.

(** X24: outside the RNDIS block, enabling a disabled function and
    disabling it again, from a state whose product id is the one
    selected for the current flags, leaves the device descriptor and the
    descriptor of the handle as they were and every function with its
    name and its state. *)
Theorem toggle_on_off_restores
    (k : kconfig) (f : nat) (e : Z) (s : android_state)
    (dev : android_dev) (fn : usb_function) :
  _android_dev s = Some dev ->
  functions (android_config_driver s) !! f = Some fn ->
  disabled fn <> 0 ->
  e <> 0 ->
  descriptor_in_sync s dev ->
  takes_rndis_branch k fn = false ->
  exists s1 s2,
    android_enable_function k f e s = Some s1 /\
    android_enable_function k f 0 s1 = Some s2 /\
    device_desc s2 = device_desc s /\
    _android_dev s2 = Some dev /\
    Forall2 same_flag (functions (android_config_driver s2))
                      (functions (android_config_driver s)).
Proof.
  intros Hd Hf Hdis He [Hsync Hcd] Hr.
  assert (Hon : ~ same_state e fn).
  { unfold same_state. intros [H _]. apply Hdis, H, He. }
  assert (Hoff : forall x, ~ same_state 0 (set_disabled x (lnot e))).
  { intros x. unfold same_state. simpl. intros [_ H].
    unfold lnot in H. destruct (Z.eqb_spec e 0); [contradiction|].
    specialize (H eq_refl). congruence. }
  assert (Hflags : Forall2 same_flag
            (alter (fun x => set_disabled x (lnot 0)) f
               (alter (fun x => set_disabled x (lnot e)) f
                  (functions (android_config_driver s))))
            (functions (android_config_driver s))).
  { apply Forall2_same_length_lookup. split; [rewrite !length_alter; reflexivity|].
    intros i x y Hx Hy. destruct (decide (f = i)) as [<-|Hne].
    - rewrite list_alter_alter_eq, list_lookup_alter_eq, Hf in Hx.
      rewrite Hf in Hy. injection Hy as <-. simpl in Hx. injection Hx as <-.
      split; simpl; [reflexivity|].
      apply Z.eqb_neq in Hdis. rewrite Hdis. reflexivity.
    - rewrite !list_lookup_alter_ne, Hy in Hx by assumption.
      injection Hx as <-. apply same_flag_refl. }
  rewrite (enable_edge_plain k f e s dev fn Hd Hf Hon Hr).
  destruct (cdev dev) as [cd|] eqn:Hc;
    (eexists; eexists; split; [reflexivity|]).
  - erewrite (enable_edge_plain k f 0 _ _ (set_disabled fn (lnot e)));
      [| reflexivity | | apply Hoff | exact Hr ].
    2:{ simpl. rewrite list_lookup_alter_eq, Hf. reflexivity. }
    split; [reflexivity|]. simpl.
    match goal with |- context [get_product_id ?d1 ?c1] =>
      match c1 with context [lnot 0] =>
        assert (Hpid : get_product_id d1 c1 = get_product_id dev (android_config_driver s))
      end end.
    { apply get_product_id_same_flag; try reflexivity. exact Hflags. }
    rewrite Hpid. clear Hpid.
    specialize (Hcd cd eq_refl). rewrite <- Hsync.
    split; [apply set_idProduct_back|]. split; [|exact Hflags].
    f_equal. destruct dev as [dc dcfg dp dfn dpid dv]. simpl in *. subst dc.
    unfold set_cdev. simpl. do 3 f_equal.
    destruct cd as [[a b c0 d0 e0 g0]]. simpl in *. subst. reflexivity.
  - erewrite (enable_edge_plain k f 0 _ dev (set_disabled fn (lnot e)));
      [| reflexivity | | apply Hoff | exact Hr ].
    2:{ simpl. rewrite list_lookup_alter_eq, Hf. reflexivity. }
    split; [reflexivity|]. simpl. rewrite Hc.
    match goal with |- context [get_product_id ?d1 ?c1] =>
      match c1 with context [lnot 0] =>
        assert (Hpid : get_product_id d1 c1 = get_product_id dev (android_config_driver s))
      end end.
    { apply get_product_id_same_flag; try reflexivity. exact Hflags. }
    rewrite Hpid, <- Hsync.
    split; [apply set_idProduct_back|]. split; [reflexivity|exact Hflags].
Qed.

(** ** A register call under a name that is taken *)

Lemma register_log (f : android_usb_function) (s : android_state) :
  klog (android_register_function f s) =
  klog s ++ pr_info_register (a_name f) :: register_log_tail f s.
Proof.
  unfold register_log_tail.
  destruct (_android_dev s) as [dev|] eqn:Hd.
  - rewrite (register_retests f s dev Hd).
    destruct (gate (after_list_add f s)).
    + unfold bind_functions.
      destruct (bind_loop_spec (d_functions dev)
                  (emit enter_bind_functions (after_list_add f s))) as [H _].
      rewrite H. simpl. rewrite <- !app_assoc. reflexivity.
    + reflexivity.
  - unfold android_register_function. cbv zeta. simpl. rewrite Hd. reflexivity.
Qed.

Lemma bind_events_no_error (names : list string) (reg : list android_usb_function)
    (nm : string) (g : android_usb_function) :
  get_function nm reg = Some g ->
  ~ In (pr_err_not_found nm) (bind_events names reg).
Proof.
  intros Hg. unfold bind_events. intros Hin.
  apply in_map_iff in Hin. destruct Hin as (x & Hx & _).
  destruct (get_function x reg) eqn:E; [discriminate|].
  injection Hx as ->. congruence.
Qed.

(** C5, amended: a register call makes no test on the name: for a
    driver whose struct is not in the registry yet and whose name is
    taken, the driver is appended after those already registered, the
    count is incremented, and a lookup of the name still returns the
    driver registered first; the call logs its registration line and,
    when it completes the count, the lines of [bind_functions], among
    which there is no error line for that name: nothing is logged about
    the name being taken. *)
Theorem register_duplicate_appended (f g : android_usb_function) (s : android_state) :
  get_function (a_name f) (_functions s) = Some g ->
  ~ In f (_functions s) ->
  _functions (android_register_function f s) = _functions s ++ [f] /\
  _registered_function_count (android_register_function f s) =
    wrap_int (_registered_function_count s + 1) /\
  get_function (a_name f) (_functions (android_register_function f s)) = Some g /\
  klog (android_register_function f s) =
    klog s ++ pr_info_register (a_name f) :: register_log_tail f s /\
  ~ In (pr_err_not_found (a_name f)) (register_log_tail f s) /\
  (gate (after_list_add f s) = false ->
   klog (android_register_function f s) = klog s ++ [pr_info_register (a_name f)]).
Proof.
  intros Hg Hfresh.
  destruct (register_frame f s) as (_ & H2 & H3 & _).
  rewrite H2, H3, get_function_app, Hg, register_log.
  split; [reflexivity|]. split; [reflexivity|]. split; [reflexivity|].
  split; [reflexivity|]. split.
  - unfold register_log_tail.
    destruct (_android_dev s) as [dev|]; [|intros []].
    destruct (gate (after_list_add f s)); [|intros []].
    intros [H|H]; [discriminate|].
    revert H. apply (bind_events_no_error _ _ _ g).
    rewrite get_function_app, Hg. reflexivity.
  - intros Hgate. unfold register_log_tail.
    destruct (_android_dev s); [rewrite Hgate|]; reflexivity.
Qed.

End Driver.

(** * The properties at concrete inputs *)

(** The concrete states are reached by runs of the driver. *)
Example states_reached :
  run (W:=unit) [Register (plain_driver "adb"); Attach android_config_driver_ref]
      (probed_state ["adb"]) = Some complete_state /\
  run (W:=unit) [Register (plain_driver "adb"); Register second_adb_driver]
      (probed_state ["adb"]) = Some overcounted_state /\
  run (W:=unit) [Register (plain_driver "adb")]
      (probed_state ["adb"; "mtp"]) = Some one_registered_state.
Proof. repeat split. Qed.


(** The overcount at the state with two registrations for one expected function:
    the attach event and a later registration bind nothing. *)
Lemma overcount_never_binds_witness :
  _android_dev (W:=unit) overcounted_state = Some (probed_dev ["adb"] None) /\
  num_functions (probed_dev ["adb"] None) <
    _registered_function_count (W:=unit) overcounted_state /\
  _registered_function_count (W:=unit) overcounted_state +
    Z.of_nat (registers (W:=unit)
                [Attach android_config_driver_ref; Register (plain_driver "mtp")])
    <= INT_MAX /\
  exists s' : @android_state unit,
    run [Attach android_config_driver_ref; Register (plain_driver "mtp")]
        (overcounted_state (W:=unit)) = Some s' /\
    binds s' = binds (W:=unit) overcounted_state /\
    android_config_driver s' = android_config_driver (W:=unit) overcounted_state.
Proof.
  assert (H1 : num_functions (probed_dev ["adb"] None) <
               _registered_function_count (W:=unit) overcounted_state)
    by (vm_compute; reflexivity).
  assert (H2 : _registered_function_count (W:=unit) overcounted_state +
      Z.of_nat (registers (W:=unit)
                [Attach android_config_driver_ref; Register (plain_driver "mtp")])
      <= INT_MAX) by (vm_compute; discriminate).
  split; [reflexivity|]. split; [exact H1|]. split; [exact H2|].
  exact (overcount_never_binds (W:=unit)
           [Attach android_config_driver_ref; Register (plain_driver "mtp")]
           overcounted_state (probed_dev ["adb"] None) eq_refl H1 H2).
Defined.


(** A second driver, with a struct of its own, registering as "adb" is
    inserted, the count goes to two, and only the two registration lines
    are in the log. *)
Lemma register_duplicate_cex :
  get_function (W:=unit) "adb" (_functions one_registered_state) =
    Some (plain_driver "adb") /\
  ~ In (second_adb_driver (W:=unit)) (_functions one_registered_state) /\
  _functions (W:=unit) (android_register_function second_adb_driver one_registered_state)
    = [plain_driver "adb"; second_adb_driver] /\
  _functions (W:=unit) (android_register_function second_adb_driver one_registered_state)
    <> _functions (W:=unit) one_registered_state /\
  _registered_function_count (W:=unit)
    (android_register_function second_adb_driver one_registered_state) = 2 /\
  klog (W:=unit) (android_register_function second_adb_driver one_registered_state)
    = [pr_info_register "adb"; pr_info_register "adb"].
Proof.
  split; [reflexivity|]. split.
  { simpl. intros [H|[]].
    apply (f_equal (fun d => length (functions (bind_config d empty_config)))) in H.
    discriminate H. }
  repeat split.
  intros H. apply (f_equal (@length _)) in H. discriminate H.
Qed.

Lemma register_duplicate_appended_witness :
  get_function (W:=unit) (a_name (W:=unit) second_adb_driver) (_functions one_registered_state) =
    Some (plain_driver "adb") /\
  ~ In (second_adb_driver (W:=unit)) (_functions one_registered_state) /\
  _functions (W:=unit) (android_register_function second_adb_driver one_registered_state)
    = _functions (W:=unit) one_registered_state ++ [second_adb_driver] /\
  get_function (W:=unit) (a_name (W:=unit) second_adb_driver)
    (_functions (android_register_function second_adb_driver one_registered_state))
    = Some (plain_driver "adb") /\
  klog (W:=unit) (android_register_function second_adb_driver one_registered_state) =
    klog (W:=unit) one_registered_state ++ [pr_info_register "adb"].
Proof.
  assert (Hf : ~ In (second_adb_driver (W:=unit)) (_functions one_registered_state)).
  { simpl. intros [H|[]].
    apply (f_equal (fun d => length (functions (bind_config d empty_config)))) in H.
    discriminate H. }
  destruct (register_duplicate_appended (W:=unit) second_adb_driver
              (plain_driver "adb") one_registered_state eq_refl Hf)
    as (H1 & _ & H3 & _ & _ & H6).
  split; [reflexivity|]. split; [exact Hf|]. split; [exact H1|].
  split; [exact H3|]. exact (H6 eq_refl).
Defined.

(** Function A, enabled, asked to be enabled. *)
Lemma android_enable_function_same_state_witness :
  functions (android_config_driver (W:=unit) no_handle_state) !! 0%nat =
    Some (plain_function "A" 0) /\
  same_state (W:=unit) 1 (plain_function "A" 0) /\
  android_enable_function no_rndis 0 1 (no_handle_state (W:=unit)) =
    Some no_handle_state.
Proof.
  assert (H : same_state (W:=unit) 1 (plain_function "A" 0)).
  { unfold same_state. simpl. split; [reflexivity|lia]. }
  split; [reflexivity|]. split; [exact H|].
  exact (android_enable_function_same_state (W:=unit) no_rndis 0 1
           no_handle_state (plain_function "A" 0) eq_refl H).
Defined.

(** With no handle attached the reconnect primitive is called all the
    same. *)
Lemma android_enable_function_no_handle_cex :
  _android_dev (W:=unit) no_handle_state = Some no_handle_dev /\
  cdev no_handle_dev = None /\
  reset_calls (W:=unit) no_handle_state = 0%nat /\
  option_map reset_calls
    (android_enable_function (W:=unit) no_rndis 0 0 no_handle_state) = Some 1%nat /\
  option_map klog
    (android_enable_function (W:=unit) no_rndis 0 0 no_handle_state) =
    Some [call_usb_composite_force_reset false].
Proof. repeat split. Qed.

Lemma android_enable_function_no_handle_witness :
  _android_dev (W:=unit) no_handle_state = Some no_handle_dev /\
  cdev no_handle_dev = None /\
  functions (android_config_driver (W:=unit) no_handle_state) !! 0%nat =
    Some (plain_function "A" 0) /\
  ~ same_state (W:=unit) 0 (plain_function "A" 0) /\
  takes_rndis_branch (W:=unit) no_rndis (plain_function "A" 0) = false /\
  exists s' : @android_state unit,
    android_enable_function no_rndis 0 0 (no_handle_state (W:=unit)) = Some s' /\
    idProduct (device_desc s') = 8738 /\
    klog s' = [call_usb_composite_force_reset false].
Proof.
  assert (H : ~ same_state (W:=unit) 0 (plain_function "A" 0)).
  { unfold same_state. simpl. intros [_ H]. specialize (H eq_refl). lia. }
  split; [reflexivity|]. split; [reflexivity|]. split; [reflexivity|].
  split; [exact H|]. split; [reflexivity|].
  destruct (android_enable_function_no_handle (W:=unit) no_rndis 0 0
              no_handle_state no_handle_dev (plain_function "A" 0)
              eq_refl eq_refl eq_refl H eq_refl)
    as (s' & H1 & H2 & H3 & H4 & H5 & H6).
  exists s'. split; [exact H1|].
  split; [|exact H5].
  rewrite H3. injection H1 as <-. reflexivity.
Defined.

(** With RNDIS and adb both enabled and the product id 0x2222 selected
    for them, switching RNDIS off and on leaves adb disabled and the
    product id 0x1111; and with A and B bound after the product id
    0x1111 was chosen, switching A off and on leaves the fallback id. *)
Lemma toggle_restores_identity_cex :
  functions (android_config_driver (W:=unit) (rndis_state 0 8738)) !! 0%nat =
    Some (plain_function "rndis" 0) /\
  get_product_id rndis_dev (android_config_driver (W:=unit) (rndis_state 0 8738)) = 8738 /\
  idProduct (device_desc (W:=unit) (rndis_state 0 8738)) = 8738 /\
  toggle_readout (W:=unit) with_rndis 0 (rndis_state 0 8738) =
    Some (4369, Some (4369, USB_CLASS_COMM)) /\
  get_product_id no_handle_dev (set_functions (W:=unit) empty_config []) = 4369 /\
  idProduct (device_desc (W:=unit) late_bound_state) = 4369 /\
  toggle_readout (W:=unit) no_rndis 0 late_bound_state =
    Some (1, Some (1, USB_CLASS_PER_INTERFACE)).
Proof. repeat split. Qed.

(** Off and on again with RNDIS enabled alone, adb disabled, product id
    0x1111. *)
Lemma toggle_restores_identity_witness :
  _android_dev (W:=unit) (rndis_state 1 4369) =
    Some (set_cdev rndis_dev (Some {| desc := set_idProduct rndis_desc 4369 |})) /\
  functions (android_config_driver (W:=unit) (rndis_state 1 4369)) !! 0%nat =
    Some (plain_function "rndis" 0) /\
  disabled (W:=unit) (plain_function "rndis" 0) = 0 /\
  1 <> 0 /\
  descriptor_in_sync (W:=unit) (rndis_state 1 4369)
    (set_cdev rndis_dev (Some {| desc := set_idProduct rndis_desc 4369 |})) /\
  exists s1 s2 : @android_state unit,
    android_enable_function with_rndis 0 0 (rndis_state 1 4369) = Some s1 /\
    android_enable_function with_rndis 0 1 s1 = Some s2 /\
    device_desc s2 = device_desc (W:=unit) (rndis_state 1 4369) /\
    _android_dev s2 = _android_dev (W:=unit) (rndis_state 1 4369).
Proof.
  assert (H1 : 1 <> 0) by lia.
  assert (H2 : descriptor_in_sync (W:=unit) (rndis_state 1 4369)
    (set_cdev rndis_dev (Some {| desc := set_idProduct rndis_desc 4369 |}))).
  { split; [reflexivity|]. intros cd [= <-]. reflexivity. }
  split; [reflexivity|]. split; [reflexivity|]. split; [reflexivity|].
  split; [exact H1|]. split; [exact H2|].
  apply (toggle_restores_identity (W:=unit) with_rndis 0 1 (rndis_state 1 4369)
           (set_cdev rndis_dev (Some {| desc := set_idProduct rndis_desc 4369 |}))
           (plain_function "rndis" 0) eq_refl eq_refl eq_refl H1 H2).
  intros _. split.
  - eexists. split; reflexivity.
  - repeat constructor; simpl; [discriminate|lia].
Defined.

(** Three interfaces of which the second answers: the third is not
    consulted and the answer of the second is returned. *)
Lemma android_setup_config_dispatch_witness :
  calls (android_setup_config (W:=unit) example_interfaces example_request tt) !! 1%nat =
    Some {| at_interface := 1; seen := set_wIndex example_request 1; returned := 7 |} /\
  0 <= 7 /\
  length (calls (android_setup_config (W:=unit) example_interfaces example_request tt))
    = 2%nat /\
  ret (android_setup_config (W:=unit) example_interfaces example_request tt) = 7.
Proof.
  assert (H : 0 <= 7) by lia.
  split; [reflexivity|]. split; [exact H|].
  exact (proj1 (proj2 (proj2 (proj2 (android_setup_config_dispatch (W:=unit)
           example_interfaces example_request tt))))
           1%nat
           {| at_interface := 1; seen := set_wIndex example_request 1; returned := 7 |}
           eq_refl H).
Defined.

(** The same request, whose [wIndex] is 5: the second interface
    sees 1, and a caller's [wIndex] of 9 changes nothing. *)
Lemma android_setup_config_private_copy_witness :
  wIndex example_request = 5 /\
  calls (android_setup_config (W:=unit) example_interfaces example_request tt) !! 1%nat =
    Some {| at_interface := 1; seen := set_wIndex example_request 1; returned := 7 |} /\
  Z.of_nat 1 < 65536 /\
  wIndex (seen {| at_interface := 1; seen := set_wIndex example_request 1;
                  returned := 7 |}) = Z.of_nat 1 /\
  calls (android_setup_config (W:=unit) example_interfaces
           (set_wIndex example_request 9) tt) =
  calls (android_setup_config (W:=unit) example_interfaces example_request tt).
Proof.
  assert (Hlt : Z.of_nat 1 < 65536) by (simpl; lia).
  destruct (android_setup_config_private_copy (W:=unit)
              example_interfaces example_request tt) as (H1 & _ & H3).
  split; [reflexivity|]. split; [reflexivity|]. split; [exact Hlt|].
  split.
  - exact (proj2 (Forall_lookup_1 _ _ 1%nat _ H1 eq_refl) Hlt).
  - exact (proj1 (H3 9)).
Defined.

(** * The further properties at concrete inputs *)

(** "adb" then "mtp" against "mtp" then "adb". *)
Lemma bind_functions_registration_order_witness :
  _functions (set_registry (probed_state (W:=unit) ["adb"; "mtp"])
                [plain_driver "adb"; plain_driver "mtp"] 2)
  ≡ₚ _functions (set_registry (probed_state (W:=unit) ["adb"; "mtp"])
                   [plain_driver "mtp"; plain_driver "adb"] 2) /\
  NoDup (map a_name
           (_functions (set_registry (probed_state (W:=unit) ["adb"; "mtp"])
                          [plain_driver "adb"; plain_driver "mtp"] 2))) /\
  android_config_driver
    (bind_functions (probed_dev ["adb"; "mtp"] None)
       (set_registry (probed_state (W:=unit) ["adb"; "mtp"])
          [plain_driver "adb"; plain_driver "mtp"] 2)) =
  android_config_driver
    (bind_functions (probed_dev ["adb"; "mtp"] None)
       (set_registry (probed_state (W:=unit) ["adb"; "mtp"])
          [plain_driver "mtp"; plain_driver "adb"] 2)).
Proof.
  assert (H1 : _functions (set_registry (probed_state (W:=unit) ["adb"; "mtp"])
                [plain_driver "adb"; plain_driver "mtp"] 2)
    ≡ₚ _functions (set_registry (probed_state (W:=unit) ["adb"; "mtp"])
                   [plain_driver "mtp"; plain_driver "adb"] 2))
    by (simpl; apply perm_swap).
  assert (H2 : NoDup (map a_name
           (_functions (set_registry (probed_state (W:=unit) ["adb"; "mtp"])
                          [plain_driver "adb"; plain_driver "mtp"] 2)))).
  { simpl. apply NoDup_cons; split; [|apply NoDup_singleton].
    intros H. apply list_elem_of_singleton in H. discriminate H. }
  split; [exact H1|]. split; [exact H2|].
  exact (bind_functions_registration_order (W:=unit)
           (probed_dev ["adb"; "mtp"] None) _ _ H1 H2 eq_refl).
Defined.

(** "adb" registers before the attach event and "mtp" after it. *)
Lemma all_registered_binds_once_witness :
  _android_dev (probed_state (W:=unit) ["adb"; "mtp"]) =
    Some (probed_dev ["adb"; "mtp"] None) /\
  config (probed_dev ["adb"; "mtp"] None) = None /\
  0 <= _registered_function_count (probed_state (W:=unit) ["adb"; "mtp"]) /\
  _registered_function_count (probed_state (W:=unit) ["adb"; "mtp"])
    + Z.of_nat (length [plain_driver (W:=unit) "adb"])
    + Z.of_nat (length [plain_driver (W:=unit) "mtp"])
    = num_functions (probed_dev ["adb"; "mtp"] None) /\
  num_functions (probed_dev ["adb"; "mtp"] None) <= INT_MAX /\
  exists s' : @android_state unit,
    run (map Register [plain_driver "adb"] ++
         Attach android_config_driver_ref :: map Register [plain_driver "mtp"])
        (probed_state ["adb"; "mtp"]) = Some s' /\
    binds s' = 1%nat.
Proof.
  assert (H0 : 0 <= _registered_function_count (probed_state (W:=unit) ["adb"; "mtp"]))
    by (simpl; lia).
  assert (Hm : num_functions (probed_dev ["adb"; "mtp"] None) <= INT_MAX)
    by (vm_compute; discriminate).
  split; [reflexivity|]. split; [reflexivity|]. split; [exact H0|].
  split; [reflexivity|]. split; [exact Hm|].
  destruct (all_registered_binds_once (W:=unit)
              [plain_driver "adb"] [plain_driver "mtp"] android_config_driver_ref
              (probed_state ["adb"; "mtp"]) (probed_dev ["adb"; "mtp"] None)
              eq_refl eq_refl H0 eq_refl Hm) as (s' & Hr & Hb & _).
  exists s'. split; [exact Hr|exact Hb].
Defined.

(** "adb" before and "mtp" after the attach event, against "mtp" and
    "adb" both before it. *)
Lemma registration_order_independent_witness :
  _android_dev (probed_state (W:=unit) ["adb"; "mtp"]) =
    Some (probed_dev ["adb"; "mtp"] None) /\
  config (probed_dev ["adb"; "mtp"] None) = None /\
  _functions (probed_state (W:=unit) ["adb"; "mtp"]) = [] /\
  _registered_function_count (probed_state (W:=unit) ["adb"; "mtp"]) = 0 /\
  Z.of_nat (length ([plain_driver (W:=unit) "adb"] ++ [plain_driver "mtp"])) =
    num_functions (probed_dev ["adb"; "mtp"] None) /\
  num_functions (probed_dev ["adb"; "mtp"] None) <= INT_MAX /\
  [plain_driver (W:=unit) "adb"] ++ [plain_driver "mtp"]
    ≡ₚ [plain_driver "mtp"; plain_driver "adb"] ++ [] /\
  NoDup (map a_name ([plain_driver (W:=unit) "adb"] ++ [plain_driver "mtp"])) /\
  exists s1 s2 : @android_state unit,
    run (map Register [plain_driver "adb"] ++
         Attach android_config_driver_ref :: map Register [plain_driver "mtp"])
        (probed_state ["adb"; "mtp"]) = Some s1 /\
    run (map Register [plain_driver "mtp"; plain_driver "adb"] ++
         Attach android_config_driver_ref :: map Register [])
        (probed_state ["adb"; "mtp"]) = Some s2 /\
    android_config_driver s1 = android_config_driver s2 /\
    binds s1 = binds s2.
Proof.
  assert (Hm : num_functions (probed_dev ["adb"; "mtp"] None) <= INT_MAX)
    by (vm_compute; discriminate).
  assert (Hp : [plain_driver (W:=unit) "adb"] ++ [plain_driver "mtp"]
                 ≡ₚ [plain_driver "mtp"; plain_driver "adb"] ++ [])
    by (simpl; apply perm_swap).
  assert (Hn : NoDup (map a_name ([plain_driver (W:=unit) "adb"] ++ [plain_driver "mtp"]))).
  { simpl. apply NoDup_cons; split; [|apply NoDup_singleton].
    intros H. apply list_elem_of_singleton in H. discriminate H. }
  split; [reflexivity|]. split; [reflexivity|]. split; [reflexivity|].
  split; [reflexivity|]. split; [reflexivity|]. split; [exact Hm|].
  split; [exact Hp|]. split; [exact Hn|].
  exact (registration_order_independent (W:=unit)
           [plain_driver "adb"] [plain_driver "mtp"]
           [plain_driver "mtp"; plain_driver "adb"] []
           android_config_driver_ref
           (probed_state ["adb"; "mtp"]) (probed_dev ["adb"; "mtp"] None)
           eq_refl eq_refl eq_refl eq_refl eq_refl Hm Hp Hn).
Defined.

(** One of two expected drivers registers and the configuration is
    attached. *)
Lemma undercount_never_binds_witness :
  _android_dev (probed_state (W:=unit) ["adb"; "mtp"]) =
    Some (probed_dev ["adb"; "mtp"] None) /\
  0 <= _registered_function_count (probed_state (W:=unit) ["adb"; "mtp"]) /\
  _registered_function_count (probed_state (W:=unit) ["adb"; "mtp"]) +
    Z.of_nat (registers (W:=unit)
                [Register (plain_driver "adb"); Attach android_config_driver_ref])
    < num_functions (probed_dev ["adb"; "mtp"] None) /\
  num_functions (probed_dev ["adb"; "mtp"] None) <= INT_MAX /\
  exists s' : @android_state unit,
    run [Register (plain_driver "adb"); Attach android_config_driver_ref]
        (probed_state ["adb"; "mtp"]) = Some s' /\
    binds s' = binds (probed_state (W:=unit) ["adb"; "mtp"]) /\
    android_config_driver s' = android_config_driver (probed_state (W:=unit) ["adb"; "mtp"]).
Proof.
  assert (H0 : 0 <= _registered_function_count (probed_state (W:=unit) ["adb"; "mtp"]))
    by (simpl; lia).
  assert (H1 : _registered_function_count (probed_state (W:=unit) ["adb"; "mtp"]) +
    Z.of_nat (registers (W:=unit)
                [Register (plain_driver "adb"); Attach android_config_driver_ref])
    < num_functions (probed_dev ["adb"; "mtp"] None)) by (vm_compute; reflexivity).
  assert (Hm : num_functions (probed_dev ["adb"; "mtp"] None) <= INT_MAX)
    by (vm_compute; discriminate).
  split; [reflexivity|]. split; [exact H0|]. split; [exact H1|]. split; [exact Hm|].
  exact (undercount_never_binds (W:=unit)
           [Register (plain_driver "adb"); Attach android_config_driver_ref]
           (probed_state ["adb"; "mtp"]) (probed_dev ["adb"; "mtp"] None)
           eq_refl H0 H1 Hm).
Defined.

(** "adb", the attach event, then "mtp", from the probed state. *)
Lemma run_registry_grows_witness :
  _android_dev (probed_state (W:=unit) ["adb"]) = Some (probed_dev ["adb"] None) /\
  0 <= _registered_function_count (probed_state (W:=unit) ["adb"]) /\
  _registered_function_count (probed_state (W:=unit) ["adb"]) +
    Z.of_nat (registers (W:=unit)
                [Register (plain_driver "adb"); Attach android_config_driver_ref;
                 Register (plain_driver "mtp")]) <= INT_MAX /\
  exists s' : @android_state unit,
    run [Register (plain_driver "adb"); Attach android_config_driver_ref;
         Register (plain_driver "mtp")] (probed_state ["adb"]) = Some s' /\
    _functions s' = [plain_driver "adb"; plain_driver "mtp"] /\
    _registered_function_count s' = 2 /\
    device_desc s' = initial_device_desc.
Proof.
  assert (H0 : 0 <= _registered_function_count (probed_state (W:=unit) ["adb"]))
    by (simpl; lia).
  assert (H1 : _registered_function_count (probed_state (W:=unit) ["adb"]) +
    Z.of_nat (registers (W:=unit)
                [Register (plain_driver "adb"); Attach android_config_driver_ref;
                 Register (plain_driver "mtp")]) <= INT_MAX)
    by (vm_compute; discriminate).
  split; [reflexivity|]. split; [exact H0|]. split; [exact H1|].
  exact (run_registry_grows (W:=unit)
           [Register (plain_driver "adb"); Attach android_config_driver_ref;
            Register (plain_driver "mtp")]
           (probed_state ["adb"]) (probed_dev ["adb"] None) eq_refl H0 H1).
Defined.

(** A profile that lists A twice and a name no function carries, against
    the profile that lists A. *)
Lemma product_matches_by_membership_witness :
  Forall (fun f : @usb_function unit =>
            In (name f) ["A"; "ghost"; "A"] <-> In (name f) ["A"])
         (functions (example_config 0 1)) /\
  product_matches_functions (W:=unit)
    {| product_id := 1; p_functions := ["A"; "ghost"; "A"] |} (example_config 0 1) =
  product_matches_functions (W:=unit)
    {| product_id := 2; p_functions := ["A"] |} (example_config 0 1).
Proof.
  assert (H : Forall (fun f : @usb_function unit =>
            In (name f) ["A"; "ghost"; "A"] <-> In (name f) ["A"])
         (functions (example_config 0 1))).
  { simpl. repeat constructor; simpl; intuition discriminate. }
  split; [exact H|].
  exact (product_matches_by_membership (W:=unit)
           {| product_id := 1; p_functions := ["A"; "ghost"; "A"] |}
           {| product_id := 2; p_functions := ["A"] |} (example_config 0 1) H).
Defined.

(** Function A switched off with no handle attached. *)
Lemma enable_edge_syncs_witness :
  _android_dev (W:=unit) no_handle_state = Some no_handle_dev /\
  functions (android_config_driver (W:=unit) no_handle_state) !! 0%nat =
    Some (plain_function "A" 0) /\
  ~ same_state (W:=unit) 0 (plain_function "A" 0) /\
  (takes_rndis_branch (W:=unit) no_rndis (plain_function "A" 0) = true ->
   is_Some (cdev no_handle_dev)) /\
  exists (s' : @android_state unit) dev',
    android_enable_function no_rndis 0 0 no_handle_state = Some s' /\
    _android_dev s' = Some dev' /\
    descriptor_in_sync s' dev' /\
    reset_calls s' = S (reset_calls (W:=unit) no_handle_state).
Proof.
  assert (H : ~ same_state (W:=unit) 0 (plain_function "A" 0)).
  { unfold same_state. simpl. intros [_ H]. specialize (H eq_refl). lia. }
  assert (Hr : takes_rndis_branch (W:=unit) no_rndis (plain_function "A" 0) = true ->
               is_Some (cdev no_handle_dev)) by (simpl; discriminate).
  split; [reflexivity|]. split; [reflexivity|]. split; [exact H|]. split; [exact Hr|].
  exact (enable_edge_syncs (W:=unit) no_rndis 0 0 no_handle_state no_handle_dev
           (plain_function "A" 0) eq_refl eq_refl H Hr).
Defined.

(** Function A switched off: B keeps its flag. *)
Lemma enable_frame_witness :
  functions (android_config_driver (W:=unit) no_handle_state) !! 0%nat =
    Some (plain_function "A" 0) /\
  android_enable_function (W:=unit) no_rndis 0 0 no_handle_state =
    Some (default no_handle_state
            (android_enable_function no_rndis 0 0 no_handle_state)) /\
  _functions (default (no_handle_state (W:=unit))
                (android_enable_function no_rndis 0 0 no_handle_state)) =
    _functions (W:=unit) no_handle_state /\
  map name (functions (android_config_driver
     (default (no_handle_state (W:=unit))
        (android_enable_function no_rndis 0 0 no_handle_state)))) = ["A"; "B"].
Proof.
  split; [reflexivity|]. split; [reflexivity|].
  destruct (enable_frame (W:=unit) no_rndis 0 0 no_handle_state
              (default no_handle_state
                 (android_enable_function no_rndis 0 0 no_handle_state))
              (plain_function "A" 0) eq_refl eq_refl) as (H1 & _ & H3 & _).
  split; [exact H1|exact H3].
Defined.

(** RNDIS switched off while adb is disabled: adb ends enabled. *)
Lemma rndis_edge_outcome_witness :
  _android_dev (W:=unit) (rndis_state 1 4369) =
    Some (set_cdev rndis_dev (Some {| desc := set_idProduct rndis_desc 4369 |})) /\
  cdev (set_cdev rndis_dev (Some {| desc := set_idProduct rndis_desc 4369 |})) =
    Some {| desc := set_idProduct rndis_desc 4369 |} /\
  functions (android_config_driver (W:=unit) (rndis_state 1 4369)) !! 0%nat =
    Some (plain_function "rndis" 0) /\
  ~ same_state (W:=unit) 0 (plain_function "rndis" 0) /\
  takes_rndis_branch (W:=unit) with_rndis (plain_function "rndis" 0) = true /\
  exists (s' : @android_state unit) dev' cd',
    android_enable_function with_rndis 0 0 (rndis_state 1 4369) = Some s' /\
    _android_dev s' = Some dev' /\ cdev dev' = Some cd' /\
    bDeviceClass (desc cd') = USB_CLASS_PER_INTERFACE /\
    Forall (fun func => rndis_conflict func = true -> disabled func = 0)
           (functions (android_config_driver s')).
Proof.
  assert (H : ~ same_state (W:=unit) 0 (plain_function "rndis" 0)).
  { unfold same_state. simpl. intros [_ H]. specialize (H eq_refl). lia. }
  split; [reflexivity|]. split; [reflexivity|]. split; [reflexivity|].
  split; [exact H|]. split; [reflexivity|].
  destruct (rndis_edge_outcome (W:=unit) with_rndis 0 0 (rndis_state 1 4369)
              (set_cdev rndis_dev (Some {| desc := set_idProduct rndis_desc 4369 |}))
              {| desc := set_idProduct rndis_desc 4369 |}
              (plain_function "rndis" 0) eq_refl eq_refl eq_refl H eq_refl)
    as (s' & dev' & cd' & H1 & H2 & H3 & H4 & H5 & _).
  exists s', dev', cd'. repeat split; assumption.
Defined.

(** The three interfaces of the example, and the same with every
    function disabled. *)
Lemma android_setup_config_ignores_flags_witness :
  Forall2 (fun a b : @usb_function unit => setup a = setup b)
    (interface example_interfaces)
    (interface (set_functions
       {| functions := [];
          interface := map (fun x => set_disabled x 1) (interface example_interfaces) |}
       [])) /\
  android_setup_config (W:=unit) example_interfaces example_request tt =
  android_setup_config
    (set_functions
       {| functions := [];
          interface := map (fun x => set_disabled x 1) (interface example_interfaces) |}
       [])
    example_request tt.
Proof.
  assert (H : Forall2 (fun a b : @usb_function unit => setup a = setup b)
    (interface example_interfaces)
    (interface (set_functions
       {| functions := [];
          interface := map (fun x => set_disabled x 1) (interface example_interfaces) |}
       []))) by (simpl; repeat constructor).
  split; [exact H|].
  exact (android_setup_config_ignores_flags (W:=unit) _ _ example_request tt H).
Defined.


(** The probe with the platform data of the example, then A, the attach
    event and B. *)
Lemma probe_then_all_registered_witness :
  _android_dev (core (initial_gadget (W:=unit) loaded_state)) = Some zeroed_dev /\
  config zeroed_dev = None /\
  0 <= _registered_function_count (core (initial_gadget (W:=unit) loaded_state)) /\
  _registered_function_count (core (initial_gadget (W:=unit) loaded_state))
    + Z.of_nat (length [plain_driver (W:=unit) "A"])
    + Z.of_nat (length [plain_driver (W:=unit) "B"])
    = Z.of_nat (length (pd_functions example_platform_data)) /\
  Z.of_nat (length (pd_functions example_platform_data)) <= INT_MAX /\
  exists (g1 : @gadget_state unit) s',
    android_probe register_returns_0 (Some example_platform_data)
      (initial_gadget loaded_state) = register_returns_0 g1 /\
    run (map Register [plain_driver "A"] ++
         Attach android_config_driver_ref :: map Register [plain_driver "B"])
        (core g1) = Some s' /\
    binds s' = 1%nat.
Proof.
  assert (H0 : 0 <= _registered_function_count
                      (core (initial_gadget (W:=unit) loaded_state)))
    by (simpl; lia).
  assert (Hm : Z.of_nat (length (pd_functions example_platform_data)) <= INT_MAX)
    by (vm_compute; discriminate).
  split; [reflexivity|]. split; [reflexivity|]. split; [exact H0|].
  split; [reflexivity|]. split; [exact Hm|].
  destruct (probe_then_all_registered (W:=unit) register_returns_0
              (initial_gadget loaded_state) example_platform_data zeroed_dev
              [plain_driver "A"] [plain_driver "B"] android_config_driver_ref
              eq_refl eq_refl H0 eq_refl Hm) as (g1 & s' & H1 & H2 & H3 & _).
  exists g1, s'. split; [exact H1|]. split; [exact H2|exact H3].
Defined.

(** [android_bind] on the probed state with the catalog of the example
    and nothing registered, the framework calling the bind callback. *)
Lemma android_bind_success_witness :
  0 <= 1 /\ 0 <= 2 /\ 0 <= 3 /\
  add_config_calls_bind
    (with_string_ids 1 2 3
       (initial_gadget (W:=unit)
          (set_dev (probed_state ["A"; "B"])
             (Some (probed_dev ["A"; "B"] (Some example_catalog)))))) =
  Some (0, with_core
             (with_string_ids 1 2 3
                (initial_gadget
                   (set_dev (probed_state ["A"; "B"])
                      (Some (probed_dev ["A"; "B"] (Some example_catalog))))))
             (set_dev (probed_state ["A"; "B"])
                (Some (set_config (probed_dev ["A"; "B"] (Some example_catalog))
                         (Some android_config_driver_ref))))) /\
  exists (g' : @gadget_state unit) dev' cd',
    android_bind 1 2 3 add_config_calls_bind 5 {| desc := initial_device_desc |}
      (initial_gadget
         (set_dev (probed_state ["A"; "B"])
            (Some (probed_dev ["A"; "B"] (Some example_catalog))))) = Some (0, g') /\
    _android_dev (core g') = Some dev' /\ cdev dev' = Some cd' /\
    descriptor_in_sync (core g') dev' /\
    bcdDevice (device_desc (core g')) = 517.
Proof.
  assert (H1 : 0 <= 1) by lia. assert (H2 : 0 <= 2) by lia.
  assert (H3 : 0 <= 3) by lia.
  split; [exact H1|]. split; [exact H2|]. split; [exact H3|].
  split; [reflexivity|].
  destruct (android_bind_success (W:=unit) 1 2 3 add_config_calls_bind 5
              {| desc := initial_device_desc |}
              (initial_gadget
                 (set_dev (probed_state ["A"; "B"])
                    (Some (probed_dev ["A"; "B"] (Some example_catalog)))))
              _ _ H1 H2 H3 eq_refl eq_refl)
    as (g' & dev' & cd' & Ha & Hb & Hc & _ & Hs & Hbcd & _).
  exists g', dev', cd'. repeat split; try assumption; apply Hs.
Defined.

(** The same call: the product id written is 0x1111, the first of the
    catalog. *)
Lemma android_bind_unbound_first_profile_witness :
  0 <= 1 /\ 0 <= 2 /\ 0 <= 3 /\
  products (set_config (probed_dev ["A"; "B"] (Some example_catalog))
              (Some android_config_driver_ref)) =
    Some ({| product_id := 4369; p_functions := ["A"] |} ::
          [{| product_id := 8738; p_functions := ["B"] |}]) /\
  exists g' : @gadget_state unit,
    android_bind 1 2 3 add_config_calls_bind 5 {| desc := initial_device_desc |}
      (initial_gadget
         (set_dev (probed_state ["A"; "B"])
            (Some (probed_dev ["A"; "B"] (Some example_catalog))))) = Some (0, g') /\
    idProduct (device_desc (core g')) = 4369.
Proof.
  assert (H1 : 0 <= 1) by lia. assert (H2 : 0 <= 2) by lia.
  assert (H3 : 0 <= 3) by lia.
  split; [exact H1|]. split; [exact H2|]. split; [exact H3|].
  split; [reflexivity|].
  exact (android_bind_unbound_first_profile (W:=unit) 1 2 3 add_config_calls_bind 5
           {| desc := initial_device_desc |}
           (initial_gadget
              (set_dev (probed_state ["A"; "B"])
                 (Some (probed_dev ["A"; "B"] (Some example_catalog)))))
           _ _ _ _ H1 H2 H3 eq_refl eq_refl eq_refl eq_refl).
Defined.

(** "adb" registers while no device is allocated. *)
Lemma register_before_init_witness :
  _android_dev (set_dev (probed_state (W:=unit) []) None) = None /\
  android_bind_config android_config_driver_ref
    (set_dev (probed_state (W:=unit) []) None) = None /\
  exists s' : @android_state unit,
    run (map Register [plain_driver "adb"]) (set_dev (probed_state []) None) = Some s' /\
    _functions s' = [plain_driver "adb"] /\
    binds s' = 0%nat.
Proof.
  split; [reflexivity|].
  destruct (register_before_init (W:=unit) [plain_driver "adb"]
              android_config_driver_ref (set_dev (probed_state []) None) eq_refl)
    as (H1 & s' & H2 & _ & H3 & H4 & _).
  split; [exact H1|]. exists s'. split; [exact H2|]. split; [exact H3|exact H4].
Defined.

(** RNDIS switched off with RNDIS support configured and no handle. *)
Lemma rndis_without_handle_faults_witness :
  _android_dev (set_dev (rndis_state (W:=unit) 1 4369) (Some (set_cdev rndis_dev None)))
    = Some (set_cdev rndis_dev None) /\
  cdev (set_cdev rndis_dev None) = None /\
  functions (android_config_driver
               (set_dev (rndis_state (W:=unit) 1 4369) (Some (set_cdev rndis_dev None))))
    !! 0%nat = Some (plain_function "rndis" 0) /\
  ~ same_state (W:=unit) 0 (plain_function "rndis" 0) /\
  takes_rndis_branch (W:=unit) with_rndis (plain_function "rndis" 0) = true /\
  android_enable_function with_rndis 0 0
    (set_dev (rndis_state (W:=unit) 1 4369) (Some (set_cdev rndis_dev None))) = None.
Proof.
  assert (H : ~ same_state (W:=unit) 0 (plain_function "rndis" 0)).
  { unfold same_state. simpl. intros [_ H]. specialize (H eq_refl). lia. }
  split; [reflexivity|]. split; [reflexivity|]. split; [reflexivity|].
  split; [exact H|]. split; [reflexivity|].
  exact (rndis_without_handle_faults (W:=unit) with_rndis 0 0
           (set_dev (rndis_state 1 4369) (Some (set_cdev rndis_dev None)))
           (set_cdev rndis_dev None) (plain_function "rndis" 0)
           eq_refl eq_refl eq_refl H eq_refl).
Defined.

(** A switched off and B switched off, in both orders. *)
Lemma enable_calls_commute_witness :
  _android_dev (W:=unit) no_handle_state = Some no_handle_dev /\
  0%nat <> 1%nat /\
  functions (android_config_driver (W:=unit) no_handle_state) !! 0%nat =
    Some (plain_function "A" 0) /\
  functions (android_config_driver (W:=unit) no_handle_state) !! 1%nat =
    Some (plain_function "B" 0) /\
  ~ same_state (W:=unit) 0 (plain_function "A" 0) /\
  ~ same_state (W:=unit) 0 (plain_function "B" 0) /\
  exists s1 s2 t : @android_state unit,
    android_enable_function no_rndis 0 0 no_handle_state = Some s1 /\
    android_enable_function no_rndis 1 0 s1 = Some t /\
    android_enable_function no_rndis 1 0 no_handle_state = Some s2 /\
    android_enable_function no_rndis 0 0 s2 = Some t.
Proof.
  assert (Hn : 0%nat <> 1%nat) by lia.
  assert (Ha : ~ same_state (W:=unit) 0 (plain_function "A" 0)).
  { unfold same_state. simpl. intros [_ H]. specialize (H eq_refl). lia. }
  assert (Hb : ~ same_state (W:=unit) 0 (plain_function "B" 0)).
  { unfold same_state. simpl. intros [_ H]. specialize (H eq_refl). lia. }
  split; [reflexivity|]. split; [exact Hn|]. split; [reflexivity|].
  split; [reflexivity|]. split; [exact Ha|]. split; [exact Hb|].
  exact (enable_calls_commute (W:=unit) no_rndis 0 1 0 0 no_handle_state
           no_handle_dev (plain_function "A" 0) (plain_function "B" 0)
           eq_refl Hn eq_refl eq_refl Ha Hb eq_refl eq_refl).
Defined.

(** adb, disabled beside RNDIS with RNDIS support not configured,
    switched on and off. *)
Lemma toggle_on_off_restores_witness :
  _android_dev (W:=unit) (rndis_state 1 4369) =
    Some (set_cdev rndis_dev (Some {| desc := set_idProduct rndis_desc 4369 |})) /\
  functions (android_config_driver (W:=unit) (rndis_state 1 4369)) !! 1%nat =
    Some (plain_function "adb" 1) /\
  disabled (W:=unit) (plain_function "adb" 1) <> 0 /\
  1 <> 0 /\
  descriptor_in_sync (W:=unit) (rndis_state 1 4369)
    (set_cdev rndis_dev (Some {| desc := set_idProduct rndis_desc 4369 |})) /\
  exists s1 s2 : @android_state unit,
    android_enable_function no_rndis 1 1 (rndis_state 1 4369) = Some s1 /\
    android_enable_function no_rndis 1 0 s1 = Some s2 /\
    device_desc s2 = device_desc (W:=unit) (rndis_state 1 4369) /\
    _android_dev s2 = _android_dev (W:=unit) (rndis_state 1 4369).
Proof.
  assert (H0 : disabled (W:=unit) (plain_function "adb" 1) <> 0) by (simpl; lia).
  assert (H1 : 1 <> 0) by lia.
  assert (H2 : descriptor_in_sync (W:=unit) (rndis_state 1 4369)
    (set_cdev rndis_dev (Some {| desc := set_idProduct rndis_desc 4369 |}))).
  { split; [reflexivity|]. intros cd [= <-]. reflexivity. }
  split; [reflexivity|]. split; [reflexivity|]. split; [exact H0|].
  split; [exact H1|]. split; [exact H2|].
  destruct (toggle_on_off_restores (W:=unit) no_rndis 1 1 (rndis_state 1 4369)
              (set_cdev rndis_dev (Some {| desc := set_idProduct rndis_desc 4369 |}))
              (plain_function "adb" 1) eq_refl eq_refl H0 H1 H2 eq_refl)
    as (s1 & s2 & Ha & Hb & Hc & Hd & _).
  exists s1, s2. repeat split; assumption.
Defined.
